(** * The sample-changer task engine of AbstractSampleChanger.py

    A shallow embedding of [HardwareObjects/abstract/AbstractSampleChanger.py]:
    the state machine, the single task slot, the loaded-sample registry and
    the fine update timer, followed by the properties of the specification
    that concern them.

    Python integers (states, modes, counters) are [Z]; the instance [self]
    is the record [SampleChanger]; a method is a function in the monad [M]
    that threads [self] and may raise, the mutations made before a raise
    being kept, as in Python.  Sample objects live in a store indexed by
    their identity, so that [==] on objects is equality of identities. *)

From Stdlib Require Import ZArith String List Bool Lia.
From stdpp Require Import base gmap strings list.

Open Scope string_scope.
Open Scope list_scope.
Open Scope Z_scope.

(** ** Enumerations *)

Module SampleChangerState.

Definition Unknown : Z := 0.
Definition Ready : Z := 1.
Definition Loaded : Z := 2.
Definition Loading : Z := 3.
Definition Unloading : Z := 4.
Definition Selecting : Z := 5.
Definition Scanning : Z := 6.
Definition Resetting : Z := 7.
Definition Charging : Z := 8.
Definition Moving : Z := 9.
Definition ChangingMode : Z := 10.
Definition StandBy : Z := 11.
Definition Disabled : Z := 12.
Definition Alarm : Z := 13.
Definition Fault : Z := 14.
Definition Initializing : Z := 15.
Definition Closing : Z := 16.

(** [STATE_DESC], a dict from state to description, as the association
    list of its items; [Unknown] has no entry. *)
Definition STATE_DESC : list (Z * string) :=
  [ (Ready, "Ready"); (Loaded, "Loaded"); (Alarm, "Alarm");
    (Charging, "Charging"); (Disabled, "Disabled"); (Fault, "Fault");
    (Loading, "Loading"); (Resetting, "Resetting"); (Scanning, "Scanning");
    (Selecting, "Selecting"); (Unloading, "Unloading"); (Moving, "Moving");
    (ChangingMode, "Changing Mode"); (StandBy, "StandBy");
    (Initializing, "Initializing"); (Closing, "Closing") ].

Fixpoint dict_get (d : list (Z * string)) (k : Z) (default : string) : string :=
  match d with
  | [] => default
  | (k', v) :: d' => if Z.eqb k' k then v else dict_get d' k default
  end.

Definition tostring (state : Z) : string := dict_get STATE_DESC state "Unknown".

End SampleChangerState.

Module SampleChangerMode.

Definition Unknown : Z := 0.
Definition Normal : Z := 1.
Definition Charging : Z := 8.
Definition Disabled : Z := 11.

End SampleChangerMode.

(** ** Objects, exceptions, events *)

(** The identity of a Python object (what [is] and the default [==] compare). *)
Definition loc := positive.

(** What a [raise] carries.  [Exception] stands for the instances of
    [Exception], [BaseException] for those of [BaseException] that are not
    ([GreenletExit], [KeyboardInterrupt]): [except Exception] lets them
    through, [except BaseException] does not. *)
Inductive exn : Type :=
| Exception (msg : string)
| BaseException (msg : string).

(** The device callback of a task with its arguments: the [method, *args]
    that [_execute_task] hands to [_run]. *)
Inductive method : Type :=
| DoChangeMode (mode : Z)
| DoScan (component : option loc) (recursive : bool)
| DoSelect (component : option loc)
| DoLoad (sample : option loc)
| DoUnload (sample_slot : option loc)
| DoReset.

(** The background unit made by [self._run(task, method, wait=False, *args)]. *)
Record greenlet : Type := Greenlet { g_task : Z; g_method : method }.

(** Python values that the commands return. *)
Inductive pyval : Type :=
| PNone
| PInt (z : Z)
| PStr (s : string)
| PSample (l : loc)
| PTask (g : greenlet).

(** The events of [self.emit], with their payloads. *)
Inductive event : Type :=
| STATE_CHANGED_EVENT (state former : Z)
| STATUS_CHANGED_EVENT (status : string)
| INFO_CHANGED_EVENT
| LOADED_SAMPLE_CHANGED_EVENT (sample : option loc)
| SELECTION_CHANGED_EVENT
| TASK_FINISHED_EVENT (task : option Z) (ret : pyval) (exception : option exn)
| CONTENTS_UPDATED_EVENT.

Global Instance exn_eq_dec : EqDecision exn.
Proof. solve_decision. Defined.
Global Instance method_eq_dec : EqDecision method.
Proof. solve_decision. Defined.
Global Instance greenlet_eq_dec : EqDecision greenlet.
Proof. solve_decision. Defined.
Global Instance pyval_eq_dec : EqDecision pyval.
Proof. solve_decision. Defined.
Global Instance event_eq_dec : EqDecision event.
Proof. solve_decision. Defined.

(** ** The container model *)

Module Container.

(** Modelled from the spec: the module [sample_changer/Container.py]
    (classes [Container] and [Sample]) is not among the sources.  A Sample
    is a leaf with the flags [present], [scanned], [loaded],
    [has_been_loaded], a holder length, an optional datamatrix and an
    optional name; [address] is its full colon-separated path; [dirty]
    records that a flag was written since the last refresh. *)
Record Sample : Type := mkSample {
  address : string;
  present : bool;
  scanned : bool;
  loaded : bool;
  has_been_loaded : bool;
  holder_length : Z;
  datamatrix : option string;
  name : option string;
  dirty : bool
}.

(** Modelled from the spec: an entity is a tagged variant, a container
    (address segment, scannable flag, ordered children) or a sample leaf,
    here the identity of the Sample object. *)
#[warnings="-register-all"]
Inductive Entity : Type :=
| ESample (s : loc)
| EContainer (segment : string) (scannable : bool) (children : list Entity).

(** Modelled from the spec: [get_sample_list] flattens the tree depth
    first, in stable order, from the current tree. *)
Fixpoint entity_samples (e : Entity) : list loc :=
  match e with
  | ESample s => [s]
  | EContainer _ _ children => flat_map entity_samples children
  end.

(** Modelled from the spec: [Sample._set_loaded(loaded)] writes the leaf
    flag, marking the sample dirty when the flag changes. *)
Definition _set_loaded (b : bool) (s : Sample) : Sample :=
  mkSample (address s) (present s) (scanned s) b (has_been_loaded s)
           (holder_length s) (datamatrix s) (name s)
           (if Bool.eqb (loaded s) b then dirty s else true).

(** Modelled from the spec: the refresh forgets the dirty mark of a
    sample. *)
Definition _clear_dirty (s : Sample) : Sample :=
  mkSample (address s) (present s) (scanned s) (loaded s) (has_been_loaded s)
           (holder_length s) (datamatrix s) (name s) false.

End Container.

Import Container.

(** ** The instance *)

(** The attributes of [self] that the engine reads and writes.
    [components] and [heap] are the Container part: the children of the
    root and the store of the Sample objects.  [emitted] is the log of
    [self.emit], oldest first; subscribers are outside the model. *)
Record SampleChanger : Type := mkSampleChanger {
  state : Z;
  status : string;
  task : option Z;
  task_proc : option greenlet;
  task_error : option exn;
  _transient : bool;
  _timer_update_inverval : Z;
  _timer_update_counter : Z;
  components : list Entity;
  heap : gmap loc Sample;
  emitted : list event
}.

Definition set_state (v : Z) (self : SampleChanger) : SampleChanger :=
  mkSampleChanger v (status self) (task self) (task_proc self)
    (task_error self) (_transient self) (_timer_update_inverval self)
    (_timer_update_counter self) (components self) (heap self) (emitted self).

Definition set_status (v : string) (self : SampleChanger) : SampleChanger :=
  mkSampleChanger (state self) v (task self) (task_proc self)
    (task_error self) (_transient self) (_timer_update_inverval self)
    (_timer_update_counter self) (components self) (heap self) (emitted self).

Definition set_task (v : option Z) (self : SampleChanger) : SampleChanger :=
  mkSampleChanger (state self) (status self) v (task_proc self)
    (task_error self) (_transient self) (_timer_update_inverval self)
    (_timer_update_counter self) (components self) (heap self) (emitted self).

Definition set_task_proc (v : option greenlet) (self : SampleChanger)
  : SampleChanger :=
  mkSampleChanger (state self) (status self) (task self) v
    (task_error self) (_transient self) (_timer_update_inverval self)
    (_timer_update_counter self) (components self) (heap self) (emitted self).

Definition set_task_error (v : option exn) (self : SampleChanger)
  : SampleChanger :=
  mkSampleChanger (state self) (status self) (task self) (task_proc self)
    v (_transient self) (_timer_update_inverval self)
    (_timer_update_counter self) (components self) (heap self) (emitted self).

Definition set_timer_update_inverval (v : Z) (self : SampleChanger)
  : SampleChanger :=
  mkSampleChanger (state self) (status self) (task self) (task_proc self)
    (task_error self) (_transient self) v
    (_timer_update_counter self) (components self) (heap self) (emitted self).

Definition set_timer_update_counter (v : Z) (self : SampleChanger)
  : SampleChanger :=
  mkSampleChanger (state self) (status self) (task self) (task_proc self)
    (task_error self) (_transient self) (_timer_update_inverval self)
    v (components self) (heap self) (emitted self).

Definition set_heap (v : gmap loc Sample) (self : SampleChanger)
  : SampleChanger :=
  mkSampleChanger (state self) (status self) (task self) (task_proc self)
    (task_error self) (_transient self) (_timer_update_inverval self)
    (_timer_update_counter self) (components self) v (emitted self).

(** [self.emit(signal, payload)]: the event joins the log. *)
Definition emit (ev : event) (self : SampleChanger) : SampleChanger :=
  mkSampleChanger (state self) (status self) (task self) (task_proc self)
    (task_error self) (_transient self) (_timer_update_inverval self)
    (_timer_update_counter self) (components self) (heap self)
    (emitted self ++ [ev]).

(** ** The monad of methods *)

Inductive outcome (A : Type) : Type :=
| Return (a : A)
| Raise (e : exn).
Arguments Return {A} a.
Arguments Raise {A} e.

Definition M (A : Type) : Type := SampleChanger -> outcome A * SampleChanger.

Definition pure {A} (a : A) : M A := fun self => (Return a, self).

Definition raise {A} (e : exn) : M A := fun self => (Raise e, self).

Definition bind {A B} (c : M A) (k : A -> M B) : M B :=
  fun self =>
    match c self with
    | (Return a, self') => k a self'
    | (Raise e, self') => (Raise e, self')
    end.

Notation "x <- c ;; k" := (bind c (fun x => k))
  (at level 100, c at next level, right associativity).
Notation "c ;; k" := (bind c (fun _ => k))
  (at level 100, right associativity).

(** Read an attribute, and run a mutation that cannot raise. *)
Definition gets {A} (f : SampleChanger -> A) : M A :=
  fun self => (Return (f self), self).

Definition modify (f : SampleChanger -> SampleChanger) : M unit :=
  fun self => (Return tt, f self).

(** [try: c  except Exception as ex: ...]: the instances of [Exception]
    are handed to the handler as values, the others pass. *)
Definition try_except_Exception {A} (c : M A) : M (A + exn) :=
  fun self =>
    match c self with
    | (Return a, self') => (Return (inl a), self')
    | (Raise (Exception msg), self') => (Return (inr (Exception msg)), self')
    | (Raise (BaseException msg), self') => (Raise (BaseException msg), self')
    end.

(** [try: c  except BaseException: pass]. *)
Definition try_except_BaseException_pass (c : M unit) : M unit :=
  fun self =>
    match c self with
    | (Return _, self') => (Return tt, self')
    | (Raise _, self') => (Return tt, self')
    end.

(** ** The abstract methods and the scheduler *)

(** The [abc.abstractmethod]s that a concrete sample changer supplies; each
    has [self] at hand and may raise.  [gevent_sleep] is what the other
    greenlets and the hardware do to [self] while the caller is suspended
    in one [gevent.sleep]; [clock_polls timeout] is the number of such
    sleeps of [wait_ready] that end before [time.clock] has advanced by
    [timeout]. *)
Record Device : Type := mkDevice {
  _do_abort : M unit;
  _do_update_info : M unit;
  _do_change_mode : Z -> M pyval;
  _do_scan : option loc -> bool -> M pyval;
  _do_select : option loc -> M pyval;
  _do_load : option loc -> M pyval;
  _do_unload : option loc -> M pyval;
  _do_reset : M pyval;
  gevent_sleep : M unit;
  clock_polls : Z -> nat
}.

(** [method( *args )]. *)
Definition call (dev : Device) (m : method) : M pyval :=
  match m with
  | DoChangeMode mode => _do_change_mode dev mode
  | DoScan component recursive => _do_scan dev component recursive
  | DoSelect component => _do_select dev component
  | DoLoad sample => _do_load dev sample
  | DoUnload sample_slot => _do_unload dev sample_slot
  | DoReset => _do_reset dev
  end.

(** A [component] argument of a command: [None], an address string, or an
    object of the tree. *)
Inductive component : Type :=
| CNone
| CAddress (a : string)
| CObject (l : loc).

(** ** The class SampleChanger *)

Section SampleChanger.

Import SampleChangerState.

Variable dev : Device.

(** *** Accessors and preconditions *)

Definition get_state (self : SampleChanger) : Z := state self.

Definition get_status (self : SampleChanger) : string := status self.

Definition get_task_error (self : SampleChanger) : option exn := task_error self.

Definition is_ready (self : SampleChanger) : bool :=
  (state self =? Ready) || (state self =? Loaded)
  || (state self =? Charging) || (state self =? StandBy).

Definition is_normal_state (self : SampleChanger) : bool :=
  negb (state self =? Disabled) && negb (state self =? Alarm)
  && negb (state self =? Fault) && negb (state self =? Unknown).

Definition is_enabled (self : SampleChanger) : bool :=
  negb (state self =? Disabled).

Definition assert_enabled : M unit :=
  fun self =>
    if negb (is_enabled self)
    then raise (Exception "Sample Changer is disabled") self
    else pure tt self.

Definition assert_not_charging : M unit :=
  fun self =>
    if state self =? Charging
    then raise (Exception "Sample Changer is in Charging mode") self
    else pure tt self.

Definition assert_can_execute_task : M unit :=
  fun self =>
    if negb (is_ready self)
    then raise (Exception ("Cannot execute task: bad state ("
                           +:+ tostring (state self) +:+ ")")) self
    else pure tt self.

Definition is_task_finished (self : SampleChanger) : bool :=
  is_ready self
  || (negb (is_normal_state self) && negb (state self =? Unknown)).

Definition is_executing_task (self : SampleChanger) : bool :=
  match task self with Some _ => true | None => false end.

(** [wait_ready(timeout)] for a positive timeout: poll [is_ready], sleeping
    between polls, and raise when the clock has passed the timeout.
    [polls] is the number of sleeps that end before that. *)
Fixpoint wait_ready (polls : nat) : M unit :=
  fun self =>
    if is_ready self then pure tt self
    else match polls with
         | O => raise (Exception "Timeout waiting ready") self
         | S n => (gevent_sleep dev ;; wait_ready n) self
         end.

(** *** The registry of samples *)

(** Modelled from the spec: [get_sample_list] of Container.py (not among
    the sources), the samples of the tree under [self], depth first. *)
Definition get_sample_list (self : SampleChanger) : list loc :=
  flat_map entity_samples (components self).

(** Modelled from the spec: [s.is_loaded()] and [s.get_address()] of the
    class Sample (not among the sources), on the object of identity [s]. *)
Definition heap_is_loaded (h : gmap loc Sample) (s : loc) : bool :=
  match h !! s with Some o => loaded o | None => false end.

Definition is_loaded (self : SampleChanger) (s : loc) : bool :=
  heap_is_loaded (heap self) s.

Definition get_address (self : SampleChanger) (s : loc) : string :=
  match heap self !! s with Some o => address o | None => "" end.

Definition get_loaded_sample (self : SampleChanger) : option loc :=
  find (is_loaded self) (get_sample_list self).

Definition has_loaded_sample (self : SampleChanger) : bool :=
  match get_loaded_sample self with Some _ => true | None => false end.

(** Modelled from the spec: [_is_dirty] and [_reset_dirty] of Container.py
    (not among the sources), on the dirty marks of the samples. *)
Definition _is_dirty (self : SampleChanger) : bool :=
  existsb (fun s => match heap self !! s with
                    | Some o => dirty o | None => false end)
          (get_sample_list self).

Definition _reset_dirty : M unit :=
  modify (fun self =>
    set_heap (fold_left (fun h s => alter _clear_dirty s h)
                        (get_sample_list self) (heap self)) self).

(** Modelled from the spec: [get_component_by_address] of Container.py (not
    among the sources) resolves an address to the one entity that carries
    it, or to [None]; here among the samples, the entities that [load] and
    [unload] work on: the address of a container is not resolved by this
    definition. *)
Definition get_component_by_address (self : SampleChanger) (a : string)
  : option loc :=
  find (fun s => String.eqb (get_address self s) a) (get_sample_list self).

(** *** Events *)

Definition _trigger_state_changed_event (former : Z) : M unit :=
  modify (fun self => emit (STATE_CHANGED_EVENT (state self) former) self).

Definition _trigger_status_changed_event : M unit :=
  modify (fun self => emit (STATUS_CHANGED_EVENT (status self)) self).

Definition _trigger_loaded_sample_changed_event (sample : option loc) : M unit :=
  modify (emit (LOADED_SAMPLE_CHANGED_EVENT sample)).

Definition _trigger_selection_changed_event : M unit :=
  modify (emit SELECTION_CHANGED_EVENT).

Definition _trigger_info_changed_event : M unit :=
  modify (emit INFO_CHANGED_EVENT).

Definition _trigger_task_finished_event
  (task : option Z) (ret : pyval) (exception : option exn) : M unit :=
  modify (emit (TASK_FINISHED_EVENT task ret exception)).

(** *** Protected methods *)

Definition _set_state (new_state : option Z) (new_status : option string)
  : M unit :=
  fun self =>
    let '(new_status, self) :=
      match new_state with
      | Some s =>
          if negb (state self =? s) then
            let former := state self in
            let self := set_state s self in
            let new_status :=
              match new_status with
              | None => Some (tostring s)
              | Some t => Some t
              end in
            (new_status, emit (STATE_CHANGED_EVENT (state self) former) self)
          else (new_status, self)
      | None => (new_status, self)
      end in
    match new_status with
    | Some t =>
        if negb (String.eqb (status self) t)
        then _trigger_status_changed_event (set_status t self)
        else pure tt self
    | None => pure tt self
    end.

Definition _reset_loaded_sample : M unit :=
  modify (fun self =>
    set_heap (fold_left (fun h s => alter (_set_loaded false) s h)
                        (get_sample_list self) (heap self)) self) ;;
  _trigger_loaded_sample_changed_event None.

Definition _set_loaded_sample (sample : option loc) : M unit :=
  modify (fun self =>
    set_heap (fold_left
                (fun h s =>
                   if bool_decide (Some s <> sample)
                   then alter (_set_loaded false) s h
                   else alter (_set_loaded true) s h)
                (get_sample_list self) (heap self)) self) ;;
  _trigger_loaded_sample_changed_event sample.

Definition update_info : M unit :=
  former_loaded <- gets get_loaded_sample ;;
  _do_update_info dev ;;
  dirty <- gets _is_dirty ;;
  (if dirty then _trigger_info_changed_event else pure tt) ;;
  loaded <- gets get_loaded_sample ;;
  addresses_differ <- gets (fun self =>
    match loaded, former_loaded with
    | Some l, Some f => negb (String.eqb (get_address self l) (get_address self f))
    | _, _ => true
    end) ;;
  (if bool_decide (loaded <> former_loaded) then
     if addresses_differ
     then _trigger_loaded_sample_changed_event loaded
     else pure tt
   else pure tt) ;;
  _reset_dirty.

Definition _on_task_failed (task : option Z) (exception : exn) : M unit :=
  pure tt.

(** The body of the background unit.  [task = self.task] re-reads the slot. *)
Definition _run (g : greenlet) : M pyval :=
  r <- try_except_Exception (call dev (g_method g)) ;;
  let ret := match r with inl v => v | inr _ => PNone end in
  let exception := match r with inl _ => None | inr ex => Some ex end in
  update_info ;;
  task <- gets task ;;
  modify (set_task None) ;;
  modify (set_task_proc None) ;;
  _trigger_task_finished_event task ret exception ;;
  match exception with
  | Some ex => _on_task_failed task ex ;; raise ex
  | None => pure ret
  end.

(** Modelled from the spec: the decorator [task] of TaskUtils.py (not among
    the sources) makes [_run(..., wait=False)] spawn the unit and return its
    handle at once; [ret.get()] suspends the caller until the unit has run to
    its end and returns its value or re-raises what it raised.
    [ret.link(self._on_task_ended)] only logs. *)
Definition greenlet_get (g : greenlet) : M pyval := _run g.

Definition _execute_task (task : Z) (wait : bool) (m : method) : M pyval :=
  assert_can_execute_task ;;
  modify (set_task (Some task)) ;;
  modify (set_task_error None) ;;
  _set_state (Some task) None ;;
  let ret := Greenlet task m in
  modify (set_task_proc (Some ret)) ;;
  if wait then greenlet_get ret else pure (PTask ret).

(** The scheduler runs the unit that a [wait=False] command left behind. *)
Definition run_task_proc : M pyval :=
  fun self =>
    match task_proc self with
    | Some g => greenlet_get g self
    | None => pure PNone self
    end.

(** *** Commands *)

Definition _resolve_component (c : component) : M (option loc) :=
  fun self =>
    match c with
    | CAddress a =>
        match get_component_by_address self a with
        | None => raise (Exception ("Invalid component: " +:+ a)) self
        | Some c => pure (Some c) self
        end
    | CObject l => pure (Some l) self
    | CNone => pure None self
    end.

Definition change_mode (mode : Z) (wait : bool) : M pyval :=
  fun self =>
    if mode =? SampleChangerMode.Unknown then pure PNone self
    else if mode =? get_state self then pure PNone self
    else
      ((if get_state self =? Disabled then
          _set_state (Some Unknown) None ;; update_info
        else if mode =? SampleChangerMode.Disabled then
          _set_state (Some Disabled) None
        else pure tt) ;;
       _execute_task ChangingMode wait (DoChangeMode mode)) self.

Definition select (c : component) (wait : bool) : M pyval :=
  c <- _resolve_component c ;;
  ret <- _execute_task Selecting wait (DoSelect c) ;;
  _trigger_selection_changed_event ;;
  pure ret.

Definition unload (sample_slot : component) (wait : bool) : M pyval :=
  sample_slot <- _resolve_component sample_slot ;;
  assert_not_charging ;;
  has <- gets has_loaded_sample ;;
  if negb has then raise (Exception "No sample is loaded")
  else _execute_task Unloading wait (DoUnload sample_slot).

(** [chained_load], over the [load] it calls back. *)
Definition chained_load (load : component -> bool -> M pyval)
  (sample_to_unload sample_to_load : loc) : M pyval :=
  unload (CObject sample_to_unload) true ;;
  wait_ready (clock_polls dev 10) ;;
  load (CObject sample_to_load) true.

(** [load] and [chained_load] call each other; [depth] is the number of
    nested chained loads that the interpreter's recursion limit leaves
    room for, the next one raising [RuntimeError].  [has_loaded_sample()]
    is [get_loaded_sample() is not None], so the test and the later reads
    of the loaded sample are one [match]. *)
Fixpoint load (depth : nat) (sample : component) (wait : bool) : M pyval :=
  sample <- _resolve_component sample ;;
  assert_not_charging ;;
  loaded_sample <- gets get_loaded_sample ;;
  match loaded_sample with
  | Some cur =>
      if bool_decide (sample = None \/ sample = Some cur) then
        fun self =>
          raise (Exception ("The sample " +:+ get_address self cur
                            +:+ " is already loaded")) self
      else
        match depth, sample with
        | S d, Some s => chained_load (load d) cur s
        | _, _ => raise (Exception "maximum recursion depth exceeded")
        end
  | None => _execute_task Loading wait (DoLoad sample)
  end.

Definition reset (wait : bool) : M pyval :=
  _execute_task Resetting wait DoReset.

(** *** Timers *)

Definition _set_timer_update_interval (value : Z) : M unit :=
  modify (set_timer_update_inverval value).

Definition _on_timer_update : M unit := update_info.

Definition _on_timer_1s : M unit := pure tt.

(** One turn of the [while True] of [__update_timer_task], after its
    [gevent.sleep(0.1)]. *)
Definition update_timer_cycle : M unit :=
  try_except_BaseException_pass
    (enabled <- gets is_enabled ;;
     if enabled then
       modify (fun self =>
         set_timer_update_counter (_timer_update_counter self + 1) self) ;;
       lhs <- gets _timer_update_counter ;;
       rhs <- gets _timer_update_counter ;;
       if lhs >=? rhs then
         _on_timer_update ;;
         modify (set_timer_update_counter 0)
       else pure tt
     else pure tt).

(** The first [n] turns of the loop. *)
Fixpoint __update_timer_task (n : nat) : M unit :=
  match n with
  | O => pure tt
  | S k => gevent_sleep dev ;; update_timer_cycle ;; __update_timer_task k
  end.

End SampleChanger.

(** ** Concrete devices and instances *)

(** The hooks of [SampleChangerMockup]: every [_do_*] returns at once.  Its
    [_do_change_mode(self)] takes no mode, so the call [method(mode)] of
    [_run] raises [TypeError]. *)
Definition SampleChangerMockup : Device :=
  mkDevice
    (pure tt)
    (pure tt)
    (fun _ => raise (Exception
       "_do_change_mode() takes 1 positional argument but 2 were given"))
    (fun _ _ => pure PNone)
    (fun _ => pure PNone)
    (fun _ => pure PNone)
    (fun _ => pure PNone)
    (pure PNone)
    (pure tt)
    (fun _ => 1000%nat).

(** A device whose callbacks all raise [e]; its refresh hook is the
    mockup's. *)
Definition raising_device (e : exn) : Device :=
  mkDevice
    (pure tt)
    (pure tt)
    (fun _ => raise e)
    (fun _ _ => raise e)
    (fun _ => raise e)
    (fun _ => raise e)
    (fun _ => raise e)
    (raise e)
    (pure tt)
    (fun _ => 1000%nat).

(** A device whose refresh hook raises. *)
Definition unreachable_device (e : exn) : Device :=
  mkDevice
    (pure tt)
    (raise e)
    (fun _ => pure PNone)
    (fun _ _ => pure PNone)
    (fun _ => pure PNone)
    (fun _ => pure PNone)
    (fun _ => pure PNone)
    (pure PNone)
    (pure tt)
    (fun _ => 1000%nat).

(** A device that works: loading and unloading move the loaded flag, and
    the refresh hook reads the state [Ready] back from the hardware. *)
Definition bench_device : Device :=
  mkDevice
    (pure tt)
    (_set_state (Some SampleChangerState.Ready) None)
    (fun _ => pure PNone)
    (fun _ _ => pure PNone)
    (fun _ => pure PNone)
    (fun sample => _set_loaded_sample sample ;; pure PNone)
    (fun _ => _reset_loaded_sample ;; pure PNone)
    (pure PNone)
    (pure tt)
    (fun _ => 1000%nat).

Definition pin (address : string) (loaded : bool) : Sample :=
  mkSample address true false loaded false 22 None None false.

(** Two baskets of three samples, the objects [1] to [6]. *)
Definition two_baskets : list Entity :=
  [ EContainer "1" true [ESample 1; ESample 2; ESample 3];
    EContainer "2" true [ESample 4; ESample 5; ESample 6] ]%positive.

Definition empty_heap : gmap loc Sample :=
  list_to_map
    [ (1, pin "1:1" false); (2, pin "1:2" false); (3, pin "1:3" false);
      (4, pin "2:1" false); (5, pin "2:2" false); (6, pin "2:3" false)
    ]%positive.

(** A changer in state [st] with the two baskets and nothing loaded. *)
Definition changer (st : Z) : SampleChanger :=
  mkSampleChanger st (SampleChangerState.tostring st) None None None false
    5 0 two_baskets empty_heap [].

(** The same with the sample [1:2] on the goniometer. *)
Definition changer_with_1_2 (st : Z) : SampleChanger :=
  set_heap (<[2%positive := pin "1:2" true]> empty_heap) (changer st).

(** The same with two samples flagged at once. *)
Definition changer_with_two_flags (st : Z) : SampleChanger :=
  set_heap (<[5%positive := pin "2:2" true]>
              (<[2%positive := pin "1:2" true]> empty_heap)) (changer st).

(** ** Vocabulary of the specification *)

(** The busy states: the task kinds that the commands hand to
    [_execute_task]. *)
Definition is_task_state (s : Z) : bool :=
  (s =? SampleChangerState.Loading) || (s =? SampleChangerState.Unloading)
  || (s =? SampleChangerState.Selecting) || (s =? SampleChangerState.Scanning)
  || (s =? SampleChangerState.Resetting)
  || (s =? SampleChangerState.ChangingMode).

(** The stable states: [Ready] and the fault-equivalent ones. *)
Definition is_stable_state (s : Z) : bool :=
  (s =? SampleChangerState.Ready) || (s =? SampleChangerState.Disabled)
  || (s =? SampleChangerState.Alarm) || (s =? SampleChangerState.Fault).

(** What [assert_can_execute_task] raises in the state [s]. *)
Definition bad_state (s : Z) : exn :=
  Exception ("Cannot execute task: bad state ("
             +:+ SampleChangerState.tostring s +:+ ")").

(** The calls that move the loaded flag, and a sequence of them run from
    [self]. *)
Inductive registry_call : Type :=
| set_loaded (sample : option loc)
| reset_loaded.

Definition registry_step (c : registry_call) : M unit :=
  match c with
  | set_loaded sample => _set_loaded_sample sample
  | reset_loaded => _reset_loaded_sample
  end.

Fixpoint registry_run (calls : list registry_call) (self : SampleChanger)
  : SampleChanger :=
  match calls with
  | [] => self
  | c :: calls' => registry_run calls' (snd (registry_step c self))
  end.

(** At most one Sample of the tree has [loaded == True]. *)
Definition at_most_one_loaded (self : SampleChanger) : Prop :=
  forall s1 s2 : loc,
    In s1 (get_sample_list self) -> In s2 (get_sample_list self) ->
    is_loaded self s1 = true -> is_loaded self s2 = true -> s1 = s2.

(** The address of the loaded sample, if any. *)
Definition loaded_address (self : SampleChanger) : option string :=
  option_map (get_address self) (get_loaded_sample self).

(** The test of [update_info]: the loaded sample is another object than
    the former one, and one of the two is [None] or their addresses
    differ. *)
Definition loaded_sample_differs (self : SampleChanger)
  (loaded former_loaded : option loc) : Prop :=
  loaded <> former_loaded
  /\ (loaded = None \/ former_loaded = None
      \/ option_map (get_address self) loaded
         <> option_map (get_address self) former_loaded).

Global Instance loaded_sample_differs_dec self loaded former_loaded :
  Decision (loaded_sample_differs self loaded former_loaded).
Proof. unfold loaded_sample_differs. apply _. Defined.

(** C5 as the specification words it: a call of [_set_loaded_sample] that
    leaves the address of the loaded sample as it was publishes nothing. *)
Definition set_loaded_publishes_only_on_change : Prop :=
  forall (self : SampleChanger) (sample : option loc),
    let self' := snd (_set_loaded_sample sample self) in
    loaded_address self' = loaded_address self ->
    emitted self' = emitted self.

(** C9 as the specification words it: every enabled turn of the update
    loop ends with the counter at 0. *)
Definition timer_cycle_always_resets : Prop :=
  forall (dev : Device) (self : SampleChanger),
    is_enabled self = true ->
    _timer_update_counter (snd (update_timer_cycle dev self)) = 0.

(** ** More of the class *)

(** [wait_task_finished(timeout)] for a positive timeout: as [wait_ready],
    on [is_task_finished]. *)
Fixpoint wait_task_finished (dev : Device) (polls : nat) : M unit :=
  fun self =>
    if is_task_finished self then pure tt self
    else match polls with
         | O => raise (Exception "Timeout waiting end of task") self
         | S n => (gevent_sleep dev ;; wait_task_finished dev n) self
         end.

(** The state is one of the sixteen that [STATE_DESC] describes. *)
Definition is_described (s : Z) : bool := (1 <=? s) && (s <=? 16).

(** What [_set_state(state, status)] takes as the new status text: the
    given one, or the description of the state when the state changes and
    no text is given. *)
Definition effective_status (self : SampleChanger)
  (new_state : option Z) (new_status : option string) : option string :=
  match new_status, new_state with
  | Some t, _ => Some t
  | None, Some s =>
      if state self =? s then None else Some (SampleChangerState.tostring s)
  | None, None => None
  end.

(** ** The state machine and its precondition *)

Section StateMachine.

Import SampleChangerState.

Variable dev : Device.

Lemma is_ready_true (self : SampleChanger) :
  is_ready self = true <->
  state self = Ready \/ state self = Loaded
  \/ state self = Charging \/ state self = StandBy.
Proof.
  unfold is_ready.
  repeat rewrite orb_true_iff. repeat rewrite Z.eqb_eq. tauto.
Qed.

Lemma task_state_not_ready (self : SampleChanger) :
  is_task_state (state self) = true -> is_ready self = false.
Proof.
  unfold is_task_state, is_ready.
  repeat rewrite orb_true_iff. repeat rewrite Z.eqb_eq.
  unfold Loading, Unloading, Selecting, Scanning, Resetting, ChangingMode,
    Ready, Loaded, Charging, StandBy.
  intros H. repeat rewrite orb_false_iff. repeat rewrite Z.eqb_neq. lia.
Qed.

Lemma assert_can_execute_task_not_ready (self : SampleChanger) :
  is_ready self = false ->
  assert_can_execute_task self = (Raise (bad_state (state self)), self).
Proof.
  intros H. unfold assert_can_execute_task. rewrite H. reflexivity.
Qed.

Lemma assert_can_execute_task_ready (self : SampleChanger) :
  is_ready self = true -> assert_can_execute_task self = (Return tt, self).
Proof.
  intros H. unfold assert_can_execute_task. rewrite H. reflexivity.
Qed.

(** The precondition is the first thing [_execute_task] does: when it
    fails nothing of [self] has been touched. *)
Lemma _execute_task_not_ready (self : SampleChanger) task wait m :
  is_ready self = false ->
  _execute_task dev task wait m self = (Raise (bad_state (state self)), self).
Proof.
  intros H. unfold _execute_task, bind.
  rewrite (assert_can_execute_task_not_ready self H). reflexivity.
Qed.

(** What [_set_state(state)] does to each attribute. *)
Lemma _set_state_state (self : SampleChanger) (s : Z) :
  state (snd (_set_state (Some s) None self)) = s.
Proof.
  unfold _set_state.
  destruct (Z.eqb_spec (state self) s) as [E | E]; simpl.
  - exact E.
  - destruct (String.eqb (status self) (tostring s)); reflexivity.
Qed.

Lemma _set_state_returns (self : SampleChanger) new_state new_status :
  fst (_set_state new_state new_status self) = Return tt.
Proof.
  unfold _set_state.
  destruct new_state as [s | ]; [destruct (state self =? s) | ];
    destruct new_status as [t | ]; simpl;
    repeat match goal with
           | |- context [String.eqb ?a ?b] => destruct (String.eqb a b)
           end; reflexivity.
Qed.

Lemma _set_state_slot (self : SampleChanger) new_state new_status :
  let self' := snd (_set_state new_state new_status self) in
  task self' = task self /\ task_proc self' = task_proc self
  /\ task_error self' = task_error self /\ heap self' = heap self
  /\ components self' = components self
  /\ _timer_update_counter self' = _timer_update_counter self.
Proof.
  unfold _set_state.
  destruct new_state as [s | ]; [destruct (state self =? s) | ];
    destruct new_status as [t | ]; simpl;
    repeat match goal with
           | |- context [String.eqb ?a ?b] => destruct (String.eqb a b)
           end; simpl; repeat split; reflexivity.
Qed.

(** The events of a transition: state-changed with the new and the former
    state, then status-changed when the text differs. *)
Lemma _set_state_emitted (self : SampleChanger) (s : Z) :
  state self <> s ->
  emitted (snd (_set_state (Some s) None self)) =
  emitted self ++ STATE_CHANGED_EVENT s (state self)
    :: (if String.eqb (status self) (tostring s) then []
        else [STATUS_CHANGED_EVENT (tostring s)]).
Proof.
  intros H. unfold _set_state.
  destruct (Z.eqb_spec (state self) s) as [E | _]; [contradiction | ].
  simpl. destruct (String.eqb (status self) (tostring s)); simpl.
  - reflexivity.
  - rewrite <- app_assoc. reflexivity.
Qed.

(** C8: [is_ready()] is true exactly in the states Ready, Loaded, Charging
    and StandBy; in every other state [assert_can_execute_task()] raises an
    error whose message names the current state, and so does every
    [_execute_task], which leaves [self] as it was: a task starts only from
    those four states, where the precondition passes. *)
Theorem is_ready_exactly_four_states (self : SampleChanger) :
  (is_ready self = true <->
     state self = Ready \/ state self = Loaded
     \/ state self = Charging \/ state self = StandBy)
  /\ (is_ready self = false ->
      assert_can_execute_task self
      = (Raise (Exception ("Cannot execute task: bad state ("
                           +:+ tostring (state self) +:+ ")")), self)
      /\ forall task wait m,
          _execute_task dev task wait m self
          = (Raise (Exception ("Cannot execute task: bad state ("
                               +:+ tostring (state self) +:+ ")")), self))
  /\ (is_ready self = true ->
      assert_can_execute_task self = (Return tt, self)).
Proof.
  split; [apply is_ready_true | split].
  - intros H. split.
    + apply assert_can_execute_task_not_ready, H.
    + intros task wait m. apply _execute_task_not_ready, H.
  - apply assert_can_execute_task_ready.
Qed.

(** C3: while the state machine is in the busy state of a task, any call of
    [_execute_task] fails at [assert_can_execute_task] with the error that
    names the current state; [self] is returned untouched, so no state or
    operation field has changed and no second unit was spawned. *)
Theorem second_task_fails_fast (self : SampleChanger) task wait m :
  is_task_state (state self) = true ->
  _execute_task dev task wait m self
  = (Raise (Exception ("Cannot execute task: bad state ("
                       +:+ tostring (state self) +:+ ")")), self).
Proof.
  intros H. apply _execute_task_not_ready, task_state_not_ready, H.
Qed.

(** An accepted task: the slot is taken, the error cleared, the state set
    to the task kind and the unit spawned, in that order. *)
Lemma _execute_task_ready (self : SampleChanger) task wait m :
  is_ready self = true ->
  _execute_task dev task wait m self =
  let started :=
    set_task_proc (Some (Greenlet task m))
      (snd (_set_state (Some task) None
              (set_task_error None (set_task (Some task) self)))) in
  if wait then greenlet_get dev (Greenlet task m) started
  else (Return (PTask (Greenlet task m)), started).
Proof.
  intros H. unfold _execute_task, bind.
  rewrite (assert_can_execute_task_ready self H). simpl.
  pose proof (_set_state_returns
                (set_task_error None (set_task (Some task) self))
                (Some task) None) as R.
  destruct (_set_state (Some task) None
              (set_task_error None (set_task (Some task) self))) as [r s1].
  simpl in R. subst r. simpl. destruct wait; reflexivity.
Qed.

(** Two commands in a row: the first, not waited for, leaves the machine in
    its busy state with the unit pending; the second is refused there. *)
Lemma started_task_refuses_the_next (self : SampleChanger) t0 m0 kind wait m :
  is_ready self = true ->
  is_task_state t0 = true ->
  exists started,
    _execute_task dev t0 false m0 self
    = (Return (PTask (Greenlet t0 m0)), started)
    /\ state started = t0
    /\ task started = Some t0
    /\ task_proc started = Some (Greenlet t0 m0)
    /\ _execute_task dev kind wait m started
       = (Raise (bad_state t0), started).
Proof.
  intros Hready Hbusy.
  set (armed := set_task_error None (set_task (Some t0) self)).
  set (started := set_task_proc (Some (Greenlet t0 m0))
                    (snd (_set_state (Some t0) None armed))).
  pose proof (_set_state_state armed t0) as Hs.
  pose proof (_set_state_slot armed (Some t0) None) as (Ht & _).
  assert (Hst : state started = t0) by exact Hs.
  exists started. split; [ | split; [ | split; [ | split]]].
  - rewrite (_execute_task_ready self t0 false m0 Hready). reflexivity.
  - exact Hst.
  - exact Ht.
  - reflexivity.
  - rewrite <- Hst at 1. apply _execute_task_not_ready.
    apply task_state_not_ready. rewrite Hst. exact Hbusy.
Qed.

(** Waiting for a task is starting it and letting its unit run at once. *)
Lemma waiting_runs_the_unit (self : SampleChanger) kind m :
  _execute_task dev kind true m self
  = (_execute_task dev kind false m ;; run_task_proc dev) self.
Proof.
  unfold bind at 1. destruct (is_ready self) eqn:Hready.
  - rewrite !(_execute_task_ready self kind _ m Hready). reflexivity.
  - rewrite !(_execute_task_not_ready self kind _ m Hready). reflexivity.
Qed.

(** X29: [change_mode(mode)] returns at once, with [self] untouched (no task
    started, no event published), when [mode] is equal, as an integer, to
    the value that [get_state()] reports or is the sentinel
    [SampleChangerMode.Unknown]. *)
Theorem change_mode_short_circuit (self : SampleChanger) mode wait :
  mode = get_state self \/ mode = SampleChangerMode.Unknown ->
  change_mode dev mode wait self = (Return PNone, self).
Proof.
  intros [H | H]; unfold change_mode.
  - destruct (mode =? SampleChangerMode.Unknown); [reflexivity | ].
    rewrite H, Z.eqb_refl. reflexivity.
  - rewrite H, Z.eqb_refl. reflexivity.
Qed.

(** C10: from a state that is neither [Disabled] nor equal to the value of
    the mode [Disabled], [change_mode(SampleChangerMode.Disabled)] first sets
    the state to [Disabled], publishing the transition, and then fails the
    precondition of [_execute_task]: the call raises, the machine stays
    [Disabled], and the task slot is as before. *)
Theorem change_mode_disabled_sticks (self : SampleChanger) wait :
  state self <> Disabled ->
  state self <> SampleChangerMode.Disabled ->
  exists self',
    change_mode dev SampleChangerMode.Disabled wait self
    = (Raise (Exception "Cannot execute task: bad state (Disabled)"), self')
    /\ get_state self' = Disabled
    /\ task self' = task self /\ task_proc self' = task_proc self
    /\ emitted self' =
       emitted self ++ STATE_CHANGED_EVENT Disabled (state self)
         :: (if String.eqb (status self) "Disabled" then []
             else [STATUS_CHANGED_EVENT "Disabled"]).
Proof.
  intros Hd Hm.
  exists (snd (_set_state (Some Disabled) None self)).
  pose proof (_set_state_state self Disabled) as Hs.
  pose proof (_set_state_slot self (Some Disabled) None) as (Ht & Hp & _).
  pose proof (_set_state_emitted self Disabled Hd) as He.
  pose proof (_set_state_returns self (Some Disabled) None) as Hr.
  simpl in Ht, Hp. repeat split; try assumption.
  unfold change_mode, get_state.
  replace (SampleChangerMode.Disabled =? SampleChangerMode.Unknown)
    with false by reflexivity.
  destruct (Z.eqb_spec SampleChangerMode.Disabled (state self)) as [E | _];
    [symmetry in E; contradiction | ].
  destruct (Z.eqb_spec (state self) Disabled) as [E | _]; [contradiction | ].
  rewrite Z.eqb_refl. unfold bind at 1.
  destruct (_set_state (Some Disabled) None self) as [r s1].
  simpl in *. subst r.
  rewrite _execute_task_not_ready.
  - rewrite Hs. reflexivity.
  - unfold is_ready. rewrite Hs. reflexivity.
Qed.

End StateMachine.

(** ** The registry of loaded samples *)

Section Registry.

(** Writing the flag [flag s] on every [s] of a list, as the loops of
    [_set_loaded_sample] and [_reset_loaded_sample] do: afterwards a listed
    object carries its [flag], the others are as before. *)
Lemma flag_after_loop (flag : loc -> bool)
  (step : gmap loc Sample -> loc -> gmap loc Sample) :
  (forall h s, step h s = alter (_set_loaded (flag s)) s h) ->
  forall (l : list loc) (h : gmap loc Sample) (s : loc),
    heap_is_loaded (fold_left step l h) s =
    if bool_decide (s ∈ l)
    then match h !! s with Some _ => flag s | None => false end
    else heap_is_loaded h s.
Proof.
  intros Hstep l. induction l as [ | a l IH]; intros h s; cbn [fold_left].
  - rewrite bool_decide_eq_false_2 by apply not_elem_of_nil. reflexivity.
  - rewrite IH, Hstep. unfold heap_is_loaded.
    destruct (decide (a = s)) as [-> | Hne].
    + rewrite lookup_alter_eq.
      rewrite (bool_decide_eq_true_2 (s ∈ s :: l)) by apply list_elem_of_here.
      destruct (h !! s); simpl; destruct (bool_decide (s ∈ l)); reflexivity.
    + rewrite lookup_alter_ne by exact Hne.
      destruct (decide (s ∈ l)) as [Hin | Hout].
      * rewrite bool_decide_eq_true_2 by exact Hin.
        rewrite bool_decide_eq_true_2
          by (apply elem_of_cons; right; exact Hin).
        reflexivity.
      * rewrite bool_decide_eq_false_2 by exact Hout.
        rewrite bool_decide_eq_false_2
          by (apply not_elem_of_cons; split; [congruence | exact Hout]).
        reflexivity.
Qed.

Lemma _set_loaded_sample_flags (self : SampleChanger) sample (s : loc) :
  In s (get_sample_list self) ->
  is_loaded (snd (_set_loaded_sample sample self)) s =
  match heap self !! s with
  | Some _ => bool_decide (Some s = sample)
  | None => false
  end.
Proof.
  intros Hin. unfold _set_loaded_sample, bind, is_loaded. simpl.
  change (heap_is_loaded
            (fold_left
               (fun h s0 =>
                  if bool_decide (Some s0 <> sample)
                  then alter (_set_loaded false) s0 h
                  else alter (_set_loaded true) s0 h)
               (get_sample_list self) (heap self)) s
          = match heap self !! s with
            | Some _ => bool_decide (Some s = sample)
            | None => false
            end).
  rewrite (flag_after_loop (fun s0 => bool_decide (Some s0 = sample))).
  - rewrite bool_decide_eq_true_2 by (apply list_elem_of_In; exact Hin).
    reflexivity.
  - intros h s0. destruct (decide (Some s0 = sample)) as [E | E].
    + rewrite bool_decide_eq_false_2 by tauto.
      rewrite bool_decide_eq_true_2 by exact E. reflexivity.
    + rewrite bool_decide_eq_true_2 by exact E.
      rewrite bool_decide_eq_false_2 by exact E. reflexivity.
Qed.

Lemma _reset_loaded_sample_flags (self : SampleChanger) (s : loc) :
  In s (get_sample_list self) ->
  is_loaded (snd (_reset_loaded_sample self)) s = false.
Proof.
  intros Hin. unfold _reset_loaded_sample, bind, is_loaded. simpl.
  change (heap_is_loaded
            (fold_left (fun h s0 => alter (_set_loaded false) s0 h)
               (get_sample_list self) (heap self)) s = false).
  rewrite (flag_after_loop (fun _ => false)) by reflexivity.
  rewrite bool_decide_eq_true_2 by (apply list_elem_of_In; exact Hin).
  destruct (heap self !! s); reflexivity.
Qed.

Lemma registry_step_sample_list (c : registry_call) (self : SampleChanger) :
  get_sample_list (snd (registry_step c self)) = get_sample_list self.
Proof. destruct c; reflexivity. Qed.

(** One call is enough to establish the invariant, whatever the flags
    were. *)
Lemma registry_step_at_most_one (c : registry_call) (self : SampleChanger) :
  at_most_one_loaded (snd (registry_step c self)).
Proof.
  intros s1 s2. rewrite registry_step_sample_list. intros H1 H2.
  destruct c as [sample | ]; unfold registry_step.
  - rewrite (_set_loaded_sample_flags self sample s1 H1).
    rewrite (_set_loaded_sample_flags self sample s2 H2).
    destruct (heap self !! s1); [ | discriminate].
    destruct (heap self !! s2); [ | discriminate].
    intros E1%bool_decide_eq_true_1 E2%bool_decide_eq_true_1. congruence.
  - rewrite (_reset_loaded_sample_flags self s1 H1). discriminate.
Qed.

(** C4: after any sequence of [_set_loaded_sample] and
    [_reset_loaded_sample] calls, run from a tree that has at most one
    loaded sample, or of at least one call from any tree, at most one Sample
    of the tree has [loaded == True]; and [_set_loaded_sample(sample)] leaves
    the flag set on [sample] and cleared on every other sample of the
    tree. *)
Theorem at_most_one_sample_loaded
  (self : SampleChanger) (calls : list registry_call) :
  at_most_one_loaded self \/ calls <> [] ->
  at_most_one_loaded (registry_run calls self)
  /\ forall (sample : option loc) (s : loc) (o : Sample),
      In s (get_sample_list self) -> heap self !! s = Some o ->
      is_loaded (snd (_set_loaded_sample sample self)) s
      = bool_decide (Some s = sample).
Proof.
  intros H. split.
  - revert self H. induction calls as [ | c calls IH]; intros self H; simpl.
    + destruct H as [H | H]; [exact H | contradiction].
    + apply IH. left. apply registry_step_at_most_one.
  - intros sample s o Hin Ho.
    rewrite (_set_loaded_sample_flags self sample s Hin), Ho. reflexivity.
Qed.

End Registry.

(** ** The refresh *)

Section Refresh.

Variable dev : Device.

(** The two-step test of [update_info] is [loaded_sample_differs]. *)
Lemma loaded_sample_differs_test {T} (self : SampleChanger)
  (loaded former_loaded : option loc) (a b : T) :
  (if bool_decide (loaded <> former_loaded) then
     if match loaded, former_loaded with
        | Some l, Some f =>
            negb (String.eqb (get_address self l) (get_address self f))
        | _, _ => true
        end
     then a else b
   else b)
  = if bool_decide (loaded_sample_differs self loaded former_loaded)
    then a else b.
Proof.
  unfold loaded_sample_differs.
  destruct (decide (loaded <> former_loaded)) as [Hne | Heq].
  - rewrite (bool_decide_eq_true_2 _ Hne).
    destruct loaded as [l | ], former_loaded as [f | ].
    + destruct (String.eqb_spec (get_address self l) (get_address self f))
        as [E | E]; cbn [negb].
      * rewrite bool_decide_eq_false_2; [reflexivity | ].
        intros (_ & [H | [H | H]]);
          [discriminate | discriminate | apply H; simpl; congruence].
      * rewrite bool_decide_eq_true_2; [reflexivity | ].
        split; [exact Hne | ]. right; right. simpl. congruence.
    + rewrite bool_decide_eq_true_2; [reflexivity | tauto].
    + rewrite bool_decide_eq_true_2; [reflexivity | tauto].
    + contradiction.
  - rewrite (bool_decide_eq_false_2 _ Heq).
    rewrite bool_decide_eq_false_2; [reflexivity | tauto].
Qed.

(** [update_info] around its hook: when [_do_update_info] raises, so does
    [update_info], at once; when it returns, [update_info] returns, having
    published info-changed if the tree is dirty and loaded-sample-changed
    if the loaded sample differs, and having touched nothing else but the
    dirty marks. *)
Lemma update_info_raises (self failed : SampleChanger) (e : exn) :
  _do_update_info dev self = (Raise e, failed) ->
  update_info dev self = (Raise e, failed).
Proof.
  intros H. unfold update_info, bind, gets. rewrite H. reflexivity.
Qed.

Lemma update_info_returns (self refreshed : SampleChanger) :
  _do_update_info dev self = (Return tt, refreshed) ->
  exists after,
    update_info dev self = (Return tt, after)
    /\ state after = state refreshed
    /\ task after = task refreshed
    /\ task_proc after = task_proc refreshed
    /\ task_error after = task_error refreshed
    /\ emitted after =
       emitted refreshed
       ++ (if _is_dirty refreshed then [INFO_CHANGED_EVENT] else [])
       ++ (if bool_decide
                (loaded_sample_differs refreshed
                   (get_loaded_sample refreshed) (get_loaded_sample self))
           then [LOADED_SAMPLE_CHANGED_EVENT (get_loaded_sample refreshed)]
           else []).
Proof.
  intros H. unfold update_info, bind, gets. rewrite H.
  destruct (_is_dirty refreshed);
    unfold _trigger_info_changed_event, modify;
    [ change (get_loaded_sample (emit INFO_CHANGED_EVENT refreshed))
        with (get_loaded_sample refreshed);
      change (get_address (emit INFO_CHANGED_EVENT refreshed))
        with (get_address refreshed)
    | unfold pure at 1 ];
    cbv beta iota; rewrite loaded_sample_differs_test;
    destruct (bool_decide
                (loaded_sample_differs refreshed
                   (get_loaded_sample refreshed) (get_loaded_sample self)));
    eexists; (split; [reflexivity | ]); cbn;
    rewrite ?app_nil_r, <- ?app_assoc; repeat split; reflexivity.
Qed.

(** C5 (amended): [_set_loaded_sample(sample)] always publishes one
    loaded-sample-changed event carrying [sample], whatever sample was
    loaded before; the comparison by address is made by [update_info()],
    which, when its hook returns, publishes loaded-sample-changed only if
    the loaded sample is another object than the one before the hook and
    one of the two is none or their addresses differ. *)
Theorem loaded_sample_changed_publication
  (self : SampleChanger) (sample : option loc) :
  emitted (snd (_set_loaded_sample sample self))
  = emitted self ++ [LOADED_SAMPLE_CHANGED_EVENT sample]
  /\ forall refreshed,
      _do_update_info dev self = (Return tt, refreshed) ->
      emitted (snd (update_info dev self)) =
      emitted refreshed
      ++ (if _is_dirty refreshed then [INFO_CHANGED_EVENT] else [])
      ++ (if bool_decide
               (loaded_sample_differs refreshed
                  (get_loaded_sample refreshed) (get_loaded_sample self))
          then [LOADED_SAMPLE_CHANGED_EVENT (get_loaded_sample refreshed)]
          else []).
Proof.
  split; [reflexivity | ].
  intros refreshed H.
  destruct (update_info_returns self refreshed H)
    as (after & -> & _ & _ & _ & _ & He).
  exact He.
Qed.

(** *** The background unit *)

(** A callback that raises an [Exception], followed by a refresh whose hook
    returns: [_run] publishes task-finished with the exception and re-raises
    it; the task slot is cleared; the state and [task_error] are the ones the
    refresh hook left. *)
Lemma _run_callback_raises (g : greenlet)
  (self failed refreshed : SampleChanger) (msg : string) :
  call dev (g_method g) self = (Raise (Exception msg), failed) ->
  _do_update_info dev failed = (Return tt, refreshed) ->
  exists after log,
    _run dev g self = (Raise (Exception msg), after)
    /\ state after = state refreshed
    /\ task_error after = task_error refreshed
    /\ task after = None /\ task_proc after = None
    /\ emitted after =
       log ++ [TASK_FINISHED_EVENT (task refreshed) PNone
                 (Some (Exception msg))].
Proof.
  intros Hcall Hhook.
  destruct (update_info_returns failed refreshed Hhook)
    as (info & Hinfo & Hs & Ht & _ & He & _).
  unfold _run, bind, try_except_Exception. rewrite Hcall, Hinfo.
  cbn. rewrite Ht.
  exists (emit (TASK_FINISHED_EVENT (task refreshed) PNone
                  (Some (Exception msg)))
            (set_task_proc None (set_task None info))), (emitted info).
  repeat split; assumption.
Qed.

(** A unit that returns has published its task-finished event, last, and
    has cleared the slot. *)
Lemma _run_returns (g : greenlet) (self after : SampleChanger) (v : pyval) :
  _run dev g self = (Return v, after) ->
  task after = None /\ task_proc after = None
  /\ exists log kind, emitted after = log ++ [TASK_FINISHED_EVENT kind v None].
Proof.
  unfold _run, bind, try_except_Exception.
  destruct (call dev (g_method g) self) as [[v0 | [msg | msg]] s1];
    [ | | discriminate];
    (destruct (update_info dev s1) as [[[] | e] s2]; [ | discriminate]);
    cbn; intros [= <- <-]; cbn; repeat split; eauto.
Qed.

End Refresh.

(** ** Failed tasks *)

Section FailedTasks.

Import SampleChangerState.

Lemma task_state_not_stable (kind : Z) :
  is_task_state kind = true -> is_stable_state kind = false.
Proof.
  unfold is_task_state, is_stable_state.
  repeat rewrite orb_true_iff. repeat rewrite Z.eqb_eq.
  unfold Loading, Unloading, Selecting, Scanning, Resetting, ChangingMode,
    Ready, Disabled, Alarm, Fault.
  intros H. repeat rewrite orb_false_iff. repeat rewrite Z.eqb_neq. lia.
Qed.

(** A task accepted on a device whose callbacks raise [Exception(msg)] and
    whose refresh hook does nothing, as the mockup's: what [_execute_task]
    with [wait=True] returns and leaves. *)
Lemma failed_task_outcome (self : SampleChanger) (kind : Z) (m : method)
  (msg : string) :
  is_ready self = true ->
  exists after log,
    _execute_task (raising_device (Exception msg)) kind true m self
    = (Raise (Exception msg), after)
    /\ state after = kind
    /\ task_error after = None
    /\ task after = None /\ task_proc after = None
    /\ emitted after =
       log ++ [TASK_FINISHED_EVENT (Some kind) PNone (Some (Exception msg))].
Proof.
  intros Hready.
  rewrite (_execute_task_ready _ self kind true m Hready). cbv zeta.
  set (armed := set_task_error None (set_task (Some kind) self)).
  set (started := set_task_proc (Some (Greenlet kind m))
                    (snd (_set_state (Some kind) None armed))).
  pose proof (_set_state_state armed kind) as Hs.
  pose proof (_set_state_slot armed (Some kind) None) as (Ht & _ & He & _).
  destruct (_run_callback_raises (raising_device (Exception msg))
              (Greenlet kind m) started started started msg)
    as (after & log & Hrun & Hstate & Herr & Htask & Hproc & Hlog).
  { destruct m; reflexivity. }
  { reflexivity. }
  exists after, log. unfold greenlet_get. rewrite Hrun.
  repeat split; try assumption.
  - rewrite Hstate. exact Hs.
  - rewrite Herr. exact He.
  - rewrite Hlog. do 3 f_equal. exact Ht.
Qed.

(** C1 (what the code does): on a device whose callback raises and whose
    refresh hook leaves the state alone, a task of any kind, once its unit
    has finished, leaves [get_state()] at the busy state of the task, which
    is neither [Ready] nor a fault state: [_run] restores nothing. *)
Theorem failed_task_stays_busy (self : SampleChanger) (kind : Z) (m : method)
  (msg : string) :
  is_ready self = true ->
  is_task_state kind = true ->
  exists after,
    _execute_task (raising_device (Exception msg)) kind true m self
    = (Raise (Exception msg), after)
    /\ get_state after = kind
    /\ is_stable_state (get_state after) = false
    /\ is_ready after = false
    /\ is_executing_task after = false.
Proof.
  intros Hready Hkind.
  destruct (failed_task_outcome self kind m msg Hready)
    as (after & log & Hrun & Hs & _ & Ht & _).
  exists after. unfold get_state. rewrite Hs.
  repeat split.
  - exact Hrun.
  - apply task_state_not_stable, Hkind.
  - apply task_state_not_ready. rewrite Hs. exact Hkind.
  - unfold is_executing_task. rewrite Ht. reflexivity.
Qed.

(** C2 (what the code does): the exception of the callback is re-raised to
    the waiting caller and is carried by the task-finished event, but it is
    not stored: [get_task_error()] is [None] after the task. *)
Theorem task_error_is_not_stored (self : SampleChanger) (kind : Z)
  (m : method) (msg : string) :
  is_ready self = true ->
  exists after log,
    _execute_task (raising_device (Exception msg)) kind true m self
    = (Raise (Exception msg), after)
    /\ emitted after =
       log ++ [TASK_FINISHED_EVENT (Some kind) PNone (Some (Exception msg))]
    /\ get_task_error after = None.
Proof.
  intros Hready.
  destruct (failed_task_outcome self kind m msg Hready)
    as (after & log & Hrun & _ & He & _ & _ & Hlog).
  exists after, log. repeat split; assumption.
Qed.

End FailedTasks.

(** ** Chained load *)

Section ChainedLoad.

Import SampleChangerState.

Variable dev : Device.

Lemma unload_returns (slot : loc) (self after : SampleChanger) (v : pyval) :
  unload dev (CObject slot) true self = (Return v, after) ->
  task after = None /\ task_proc after = None
  /\ exists log kind, emitted after = log ++ [TASK_FINISHED_EVENT kind v None].
Proof.
  unfold unload, bind, _resolve_component, pure, raise, gets,
    assert_not_charging.
  destruct (state self =? Charging); cbv beta iota delta [pure raise];
    [discriminate | ].
  destruct (has_loaded_sample self); cbn [negb]; cbv beta iota;
    [ | discriminate].
  destruct (is_ready self) eqn:Hready.
  - rewrite (_execute_task_ready dev self _ true _ Hready). cbv zeta.
    apply _run_returns.
  - rewrite (_execute_task_not_ready dev self _ true _ Hready). discriminate.
Qed.

End ChainedLoad.

(** ** The update timer *)

Section UpdateTimer.

Variable dev : Device.

Lemma counter_not_below_itself (counter : Z) : (counter >=? counter) = true.
Proof. unfold Z.geb. rewrite Z.compare_refl. reflexivity. Qed.

(** C9 (amended): the guard [counter >= counter] holds for every value of
    the counter, so on every enabled turn, whatever the interval set by
    [_set_timer_update_interval], [_on_timer_update] is run on [self] with
    the counter incremented; the counter is reset to 0 when the hook
    returns, and is left as the hook left it when the hook raises, the
    error being swallowed. *)
Theorem update_timer_ignores_interval (self : SampleChanger) (interval : Z) :
  (forall counter : Z, (counter >=? counter) = true)
  /\ (is_enabled self = true ->
      let configured := snd (_set_timer_update_interval interval self) in
      update_timer_cycle dev configured =
      match _on_timer_update dev
              (set_timer_update_counter
                 (_timer_update_counter configured + 1) configured) with
      | (Return _, refreshed) =>
          (Return tt, set_timer_update_counter 0 refreshed)
      | (Raise _, failed) => (Return tt, failed)
      end).
Proof.
  split; [exact counter_not_below_itself | ].
  intros Henabled configured.
  assert (Hc : is_enabled configured = true) by exact Henabled.
  unfold update_timer_cycle, try_except_BaseException_pass.
  unfold bind at 1, gets at 1. rewrite Hc.
  unfold bind at 1, modify at 1.
  unfold bind at 1, gets at 1. unfold bind at 1, gets at 1.
  rewrite counter_not_below_itself.
  unfold bind at 1.
  destruct (_on_timer_update dev
              (set_timer_update_counter
                 (_timer_update_counter configured + 1) configured))
    as [[[] | e] s1]; reflexivity.
Qed.

End UpdateTimer.

(** ** The claims that the code refutes *)

(** C5 (counterexample): with the sample [1:2] loaded, setting it loaded
    again leaves the loaded address as it was and still publishes
    loaded-sample-changed. *)
Lemma set_loaded_republishes_loaded_sample :
  ~ set_loaded_publishes_only_on_change.
Proof.
  intros H.
  specialize (H (changer_with_1_2 SampleChangerState.Ready)
                (Some 2%positive) eq_refl).
  vm_compute in H. discriminate H.
Qed.

(** C9 (counterexample): when the refresh hook raises, the turn swallows
    the error and the counter stays at its incremented value. *)
Lemma timer_turn_keeps_counter_on_error : ~ timer_cycle_always_resets.
Proof.
  intros H.
  specialize (H (unreachable_device (Exception "device unreachable"))
                (changer SampleChangerState.Ready) eq_refl).
  vm_compute in H. discriminate H.
Qed.

(** ** The theorems at concrete inputs *)

Lemma is_ready_exactly_four_states_witness :
  is_ready (changer SampleChangerState.Scanning) = false
  /\ _execute_task SampleChangerMockup SampleChangerState.Resetting true
       DoReset (changer SampleChangerState.Scanning)
     = (Raise (Exception "Cannot execute task: bad state (Scanning)"),
        changer SampleChangerState.Scanning).
Proof.
  split; [reflexivity | ].
  apply (proj1 (proj2 (is_ready_exactly_four_states SampleChangerMockup
                         (changer SampleChangerState.Scanning)))).
  reflexivity.
Defined.

Lemma second_task_fails_fast_witness :
  is_task_state (state (changer SampleChangerState.Loading)) = true
  /\ _execute_task SampleChangerMockup SampleChangerState.Unloading true
       (DoUnload None) (changer SampleChangerState.Loading)
     = (Raise (Exception "Cannot execute task: bad state (Loading)"),
        changer SampleChangerState.Loading).
Proof.
  split; [reflexivity | ].
  apply (second_task_fails_fast SampleChangerMockup
           (changer SampleChangerState.Loading)).
  reflexivity.
Defined.

Lemma change_mode_short_circuit_witness :
  SampleChangerMode.Charging
  = get_state (changer SampleChangerState.Charging)
  /\ change_mode SampleChangerMockup SampleChangerMode.Charging true
       (changer SampleChangerState.Charging)
     = (Return PNone, changer SampleChangerState.Charging).
Proof.
  split; [reflexivity | ].
  apply (change_mode_short_circuit SampleChangerMockup
           (changer SampleChangerState.Charging)).
  left. reflexivity.
Defined.

Lemma change_mode_disabled_sticks_witness :
  state (changer SampleChangerState.Ready) <> SampleChangerState.Disabled
  /\ state (changer SampleChangerState.Ready) <> SampleChangerMode.Disabled
  /\ exists self',
      change_mode SampleChangerMockup SampleChangerMode.Disabled true
        (changer SampleChangerState.Ready)
      = (Raise (Exception "Cannot execute task: bad state (Disabled)"), self')
      /\ get_state self' = SampleChangerState.Disabled
      /\ task self' = None /\ task_proc self' = None
      /\ emitted self' =
         [STATE_CHANGED_EVENT SampleChangerState.Disabled
            SampleChangerState.Ready;
          STATUS_CHANGED_EVENT "Disabled"].
Proof.
  split; [discriminate | split; [discriminate | ]].
  apply (change_mode_disabled_sticks SampleChangerMockup
           (changer SampleChangerState.Ready) true); discriminate.
Defined.

Lemma at_most_one_sample_loaded_witness :
  [set_loaded (Some 4%positive); reset_loaded; set_loaded (Some 5%positive)]
  <> []
  /\ at_most_one_loaded
       (registry_run
          [set_loaded (Some 4%positive); reset_loaded;
           set_loaded (Some 5%positive)]
          (changer_with_two_flags SampleChangerState.Ready)).
Proof.
  split; [discriminate | ].
  apply (at_most_one_sample_loaded
           (changer_with_two_flags SampleChangerState.Ready)).
  right. discriminate.
Defined.

Lemma loaded_sample_changed_publication_witness :
  _do_update_info bench_device (changer_with_1_2 SampleChangerState.Loading)
  = (Return tt,
     snd (_do_update_info bench_device
            (changer_with_1_2 SampleChangerState.Loading)))
  /\ emitted (snd (update_info bench_device
                     (changer_with_1_2 SampleChangerState.Loading)))
     = [STATE_CHANGED_EVENT SampleChangerState.Ready
          SampleChangerState.Loading;
        STATUS_CHANGED_EVENT "Ready"].
Proof.
  split; [reflexivity | ].
  apply (proj2 (loaded_sample_changed_publication bench_device
                  (changer_with_1_2 SampleChangerState.Loading) None)
           (snd (_do_update_info bench_device
                   (changer_with_1_2 SampleChangerState.Loading)))).
  reflexivity.
Defined.

Lemma failed_task_stays_busy_witness :
  is_ready (changer SampleChangerState.Ready) = true
  /\ is_task_state SampleChangerState.Loading = true
  /\ exists after,
      _execute_task (raising_device (Exception "gripper jammed"))
        SampleChangerState.Loading true (DoLoad (Some 2%positive))
        (changer SampleChangerState.Ready)
      = (Raise (Exception "gripper jammed"), after)
      /\ get_state after = SampleChangerState.Loading
      /\ is_stable_state (get_state after) = false
      /\ is_ready after = false
      /\ is_executing_task after = false.
Proof.
  split; [reflexivity | split; [reflexivity | ]].
  apply (failed_task_stays_busy (changer SampleChangerState.Ready));
    reflexivity.
Defined.

Lemma task_error_is_not_stored_witness :
  is_ready (changer SampleChangerState.Ready) = true
  /\ exists after log,
      _execute_task (raising_device (Exception "gripper jammed"))
        SampleChangerState.Loading true (DoLoad (Some 2%positive))
        (changer SampleChangerState.Ready)
      = (Raise (Exception "gripper jammed"), after)
      /\ emitted after =
         log ++ [TASK_FINISHED_EVENT (Some SampleChangerState.Loading) PNone
                   (Some (Exception "gripper jammed"))]
      /\ get_task_error after = None.
Proof.
  split; [reflexivity | ].
  apply (task_error_is_not_stored (changer SampleChangerState.Ready)).
  reflexivity.
Defined.

Lemma update_timer_ignores_interval_witness :
  is_enabled (changer SampleChangerState.Ready) = true
  /\ update_timer_cycle (unreachable_device (Exception "device unreachable"))
       (snd (_set_timer_update_interval 50
               (changer SampleChangerState.Ready)))
     = (Return tt,
        set_timer_update_counter 1
          (snd (_set_timer_update_interval 50
                  (changer SampleChangerState.Ready)))).
Proof.
  split; [reflexivity | ].
  apply (proj2 (update_timer_ignores_interval
                  (unreachable_device (Exception "device unreachable"))
                  (changer SampleChangerState.Ready) 50)).
  reflexivity.
Defined.

(** ** Scenarios *)

(** The mockup in the repository: [change_mode(Charging)] from [Ready] runs
    [_do_change_mode(mode)], which raises; the machine is left in
    [ChangingMode] and [get_task_error()] is [None]. *)
Example mockup_change_mode_gets_stuck :
  let '(r, after) :=
    change_mode SampleChangerMockup SampleChangerMode.Charging true
      (changer SampleChangerState.Ready) in
  r = Raise (Exception
        "_do_change_mode() takes 1 positional argument but 2 were given")
  /\ get_state after = SampleChangerState.ChangingMode
  /\ get_task_error after = None
  /\ emitted after =
     [STATE_CHANGED_EVENT SampleChangerState.ChangingMode
        SampleChangerState.Ready;
      STATUS_CHANGED_EVENT "Changing Mode";
      TASK_FINISHED_EVENT (Some SampleChangerState.ChangingMode) PNone
        (Some (Exception
           "_do_change_mode() takes 1 positional argument but 2 were given"))].
Proof. vm_compute. repeat split; reflexivity. Qed.

(** The value of the mode [Disabled] is the state [StandBy], not the state
    [Disabled]: asking a disabled changer for the mode [Disabled] is not
    short-circuited, whereas asking one in [StandBy] for it is. *)
Example change_mode_disabled_when_disabled :
  let '(r, after) :=
    change_mode SampleChangerMockup SampleChangerMode.Disabled true
      (changer SampleChangerState.Disabled) in
  r = Raise (Exception "Cannot execute task: bad state (Unknown)")
  /\ get_state after = SampleChangerState.Unknown
  /\ emitted after =
     [STATE_CHANGED_EVENT SampleChangerState.Unknown
        SampleChangerState.Disabled;
      STATUS_CHANGED_EVENT "Unknown"].
Proof. vm_compute. repeat split; reflexivity. Qed.

Example change_mode_disabled_when_standby :
  change_mode SampleChangerMockup SampleChangerMode.Disabled true
    (changer SampleChangerState.StandBy)
  = (Return PNone, changer SampleChangerState.StandBy).
Proof. reflexivity. Qed.

(** Two baskets of three samples with [1:2] loaded, on a device that works:
    [load("2:1")] unloads, then loads, as two operations, and ends with
    [2:1] loaded and [1:2] not. *)
Example chained_load_on_the_bench :
  let '(r, after) :=
    load bench_device 3 (CAddress "2:1") true
      (changer_with_1_2 SampleChangerState.Ready) in
  r = Return PNone
  /\ option_map (get_address after) (get_loaded_sample after) = Some "2:1"
  /\ is_loaded after 2%positive = false
  /\ get_state after = SampleChangerState.Ready
  /\ List.filter (fun ev => match ev with
                       | TASK_FINISHED_EVENT _ _ _ => true
                       | _ => false
                       end) (emitted after)
     = [TASK_FINISHED_EVENT (Some SampleChangerState.Unloading) PNone None;
        TASK_FINISHED_EVENT (Some SampleChangerState.Loading) PNone None].
Proof. vm_compute. repeat split; reflexivity. Qed.

(** With hooks that restore nothing, as the mockup's, under the commands of
    the base class: the unload of a chained load leaves the machine in
    [Unloading] and the wait for readiness times out, so that the load
    phase does not start. *)
Example chained_load_on_the_mockup :
  let '(r, after) :=
    load SampleChangerMockup 3 (CAddress "2:1") true
      (changer_with_1_2 SampleChangerState.Ready) in
  r = Raise (Exception "Timeout waiting ready")
  /\ get_state after = SampleChangerState.Unloading
  /\ emitted after =
     [STATE_CHANGED_EVENT SampleChangerState.Unloading
        SampleChangerState.Ready;
      STATUS_CHANGED_EVENT "Unloading";
      TASK_FINISHED_EVENT (Some SampleChangerState.Unloading) PNone None].
Proof. vm_compute. repeat split; reflexivity. Qed.

(** ** State names *)

Section StateNames.

Import SampleChangerState.

Lemma described_cases (s : Z) :
  is_described s = true ->
  s = 1 \/ s = 2 \/ s = 3 \/ s = 4 \/ s = 5 \/ s = 6 \/ s = 7 \/ s = 8
  \/ s = 9 \/ s = 10 \/ s = 11 \/ s = 12 \/ s = 13 \/ s = 14 \/ s = 15
  \/ s = 16.
Proof.
  unfold is_described. rewrite andb_true_iff, Z.leb_le, Z.leb_le. lia.
Qed.

(** X1: [tostring] answers "Unknown" exactly for the values that
    [STATE_DESC] does not describe: [Unknown] itself, the initial [-1] and
    any other integer outside 1..16. *)
Theorem tostring_unknown_iff (s : Z) :
  tostring s = "Unknown" <-> is_described s = false.
Proof.
  split.
  - intros H. destruct (is_described s) eqn:Hd; [ | reflexivity].
    apply described_cases in Hd.
    repeat (destruct Hd as [-> | Hd]; [vm_compute in H; discriminate H | ]).
    subst s. vm_compute in H. discriminate H.
  - unfold is_described. rewrite andb_false_iff, Z.leb_gt, Z.leb_gt.
    intros Hd. unfold tostring, STATE_DESC, dict_get,
      Ready, Loaded, Alarm, Charging, Disabled, Fault, Loading, Resetting,
      Scanning, Selecting, Unloading, Moving, ChangingMode, StandBy,
      Initializing, Closing.
    repeat match goal with
           | |- context [Z.eqb ?k s] =>
               destruct (Z.eqb_spec k s); [lia | ]
           end.
    reflexivity.
Qed.

(** X2: two described states with the same description are the same
    state: the message of [assert_can_execute_task] identifies the state. *)
Theorem tostring_injective (s t : Z) :
  is_described s = true -> is_described t = true ->
  tostring s = tostring t -> s = t.
Proof.
  intros Hs Ht H.
  apply described_cases in Hs. apply described_cases in Ht.
  repeat (destruct Hs as [-> | Hs]);
    repeat (destruct Ht as [-> | Ht]); subst;
    first [reflexivity | vm_compute in H; discriminate H].
Qed.

End StateNames.

(** ** Transitions *)

Section Transitions.

Import SampleChangerState.

(** X3: [_set_state(state, status)] publishes state-changed, with the new
    and the former state, exactly when the state differs, and after it
    status-changed exactly when the text to set (the given one, or the
    description of a new state) differs from the current text; it always
    returns, and leaves the state and the status at the values asked. *)
Theorem _set_state_events (self : SampleChanger)
  (new_state : option Z) (new_status : option string) :
  let after := snd (_set_state new_state new_status self) in
  emitted after =
    emitted self
    ++ match new_state with
       | Some s =>
           if state self =? s then []
           else [STATE_CHANGED_EVENT s (state self)]
       | None => []
       end
    ++ match effective_status self new_state new_status with
       | Some t =>
           if String.eqb (status self) t then []
           else [STATUS_CHANGED_EVENT t]
       | None => []
       end
  /\ state after = match new_state with
                   | Some s => s
                   | None => state self
                   end
  /\ status after = match effective_status self new_state new_status with
                    | Some t => t
                    | None => status self
                    end.
Proof.
  unfold _set_state, effective_status.
  destruct new_state as [s | ];
    [destruct (Z.eqb_spec (state self) s) as [E | E] | ];
    destruct new_status as [t | ]; cbn;
    repeat match goal with
           | |- context [String.eqb ?a ?b] =>
               destruct (String.eqb_spec a b)
           end; cbn;
    rewrite ?app_nil_r, <- ?app_assoc; repeat split; congruence.
Qed.

Lemma _set_state_values (self : SampleChanger)
  (new_state : option Z) (new_status : option string) :
  let after := snd (_set_state new_state new_status self) in
  match new_state with Some s => state after = s | None => True end
  /\ match new_status with Some t => status after = t | None => True end.
Proof.
  unfold _set_state.
  destruct new_state as [s | ];
    [destruct (Z.eqb_spec (state self) s) as [E | E] | ];
    destruct new_status as [t | ]; cbn;
    repeat match goal with
           | |- context [String.eqb ?a ?b] =>
               destruct (String.eqb_spec a b)
           end; cbn; repeat split; congruence.
Qed.

Lemma _set_state_nothing_to_do (self : SampleChanger)
  (new_state : option Z) (new_status : option string) :
  match new_state with Some s => state self = s | None => True end ->
  match new_status with Some t => status self = t | None => True end ->
  _set_state new_state new_status self = (Return tt, self).
Proof.
  intros Hs Ht. unfold _set_state.
  destruct new_state as [s | ]; [rewrite Hs, Z.eqb_refl | ]; cbn;
    (destruct new_status as [t | ]; [rewrite Ht, String.eqb_refl | ]);
    reflexivity.
Qed.

(** X4: [_set_state] is idempotent: the same call made twice in a row does,
    and publishes, what one call does. *)
Theorem _set_state_idempotent (self : SampleChanger)
  (new_state : option Z) (new_status : option string) :
  (_set_state new_state new_status ;; _set_state new_state new_status) self
  = _set_state new_state new_status self.
Proof.
  unfold bind.
  pose proof (_set_state_returns self new_state new_status) as Hr.
  pose proof (_set_state_values self new_state new_status) as [Hs Ht].
  destruct (_set_state new_state new_status self) as [r s1].
  simpl in Hr, Hs, Ht. subst r.
  apply _set_state_nothing_to_do; assumption.
Qed.

(** X5: [is_task_finished()] holds exactly in the four ready states and in
    [Disabled], [Alarm] and [Fault]; it fails in every task state and in
    [Unknown]. *)
Theorem is_task_finished_states (self : SampleChanger) :
  (is_task_finished self = true <->
     is_ready self = true
     \/ state self = Disabled \/ state self = Alarm \/ state self = Fault)
  /\ (is_task_state (state self) = true \/ state self = Unknown ->
      is_task_finished self = false).
Proof.
  unfold is_task_finished, is_normal_state, is_ready, is_task_state,
    Ready, Loaded, Charging, StandBy, Disabled, Alarm, Fault, Unknown,
    Loading, Unloading, Selecting, Scanning, Resetting, ChangingMode.
  split.
  - rewrite !orb_true_iff, !andb_true_iff, !negb_true_iff,
      !andb_false_iff, !negb_false_iff, !Z.eqb_eq, !Z.eqb_neq. lia.
  - rewrite !orb_true_iff, !orb_false_iff, !andb_false_iff,
      !negb_false_iff, !andb_true_iff, !negb_true_iff,
      !Z.eqb_eq, !Z.eqb_neq. lia.
Qed.

End Transitions.

(** ** Waiting *)

Section Waiting.

Variable dev : Device.

(** X6: [wait_ready] returns at once, without sleeping, when the changer is
    ready; whenever it returns the changer is ready; and with no poll left
    on a changer that is not ready it raises the timeout. *)
Theorem wait_ready_returns_ready (polls : nat) (self : SampleChanger) :
  (is_ready self = true -> wait_ready dev polls self = (Return tt, self))
  /\ (forall after,
        wait_ready dev polls self = (Return tt, after) ->
        is_ready after = true)
  /\ (is_ready self = false ->
      wait_ready dev 0 self
      = (Raise (Exception "Timeout waiting ready"), self)).
Proof.
  split; [ | split].
  - intros H. destruct polls; simpl; rewrite H; reflexivity.
  - revert self. induction polls as [ | n IH]; intros self after; simpl;
      destruct (is_ready self) eqn:Hr.
    + intros [= <-]. exact Hr.
    + discriminate.
    + intros [= <-]. exact Hr.
    + unfold bind.
      destruct (gevent_sleep dev self) as [[[] | e] s1]; [ | discriminate].
      apply IH.
  - intros H. simpl. rewrite H. reflexivity.
Qed.

(** X7: when the sleeps change nothing (no other greenlet and no hardware
    moves the state), [wait_ready] on a changer that is not ready raises the
    timeout, whatever the number of polls, and leaves [self] as it was. *)
Theorem wait_ready_times_out (polls : nat) (self : SampleChanger) :
  (forall s, gevent_sleep dev s = (Return tt, s)) ->
  is_ready self = false ->
  wait_ready dev polls self
  = (Raise (Exception "Timeout waiting ready"), self).
Proof.
  intros Hidle Hr. induction polls as [ | n IH]; simpl; rewrite Hr.
  - reflexivity.
  - unfold bind. rewrite Hidle. exact IH.
Qed.

(** X8: whenever [wait_task_finished] returns, [is_task_finished()] holds;
    it returns at once in a ready or fault state. *)
Theorem wait_task_finished_returns_finished
  (polls : nat) (self : SampleChanger) :
  (is_task_finished self = true ->
   wait_task_finished dev polls self = (Return tt, self))
  /\ (forall after,
        wait_task_finished dev polls self = (Return tt, after) ->
        is_task_finished after = true).
Proof.
  split.
  - intros H. destruct polls; simpl; rewrite H; reflexivity.
  - revert self. induction polls as [ | n IH]; intros self after; simpl;
      destruct (is_task_finished self) eqn:Hr.
    + intros [= <-]. exact Hr.
    + discriminate.
    + intros [= <-]. exact Hr.
    + unfold bind.
      destruct (gevent_sleep dev self) as [[[] | e] s1]; [ | discriminate].
      apply IH.
Qed.

End Waiting.

(** ** Refused commands *)

Section RefusedCommands.

Import SampleChangerState.

Variable dev : Device.

Lemma _resolve_component_keeps_self (c : component) (self : SampleChanger) :
  snd (_resolve_component c self) = self.
Proof.
  destruct c as [ | a | l]; simpl; [reflexivity | | reflexivity].
  destruct (get_component_by_address self a); reflexivity.
Qed.

(** X9: an address that resolves to no component makes [load], [unload] and
    [select] raise "Invalid component: <address>" at once: [self] is
    untouched, no task starts, no event is published. *)
Theorem commands_reject_unresolved_address
  (self : SampleChanger) (a : string) (depth : nat) (wait : bool) :
  get_component_by_address self a = None ->
  load dev depth (CAddress a) wait self
  = (Raise (Exception ("Invalid component: " +:+ a)), self)
  /\ unload dev (CAddress a) wait self
     = (Raise (Exception ("Invalid component: " +:+ a)), self)
  /\ select dev (CAddress a) wait self
     = (Raise (Exception ("Invalid component: " +:+ a)), self).
Proof.
  intros H. repeat split.
  - destruct depth; cbn [load]; unfold bind, _resolve_component;
      rewrite H; reflexivity.
  - unfold unload, bind, _resolve_component. rewrite H. reflexivity.
  - unfold select, bind, _resolve_component. rewrite H. reflexivity.
Qed.

(** X10: in the state [Charging], which [is_ready()] counts as ready,
    [load] and [unload] are refused with "Sample Changer is in Charging
    mode" and leave [self] untouched, while [reset] is accepted and starts
    its task. *)
Theorem charging_refuses_load_and_unload
  (self : SampleChanger) (depth : nat) (c : component) (wait : bool)
  (target : option loc) :
  state self = Charging ->
  _resolve_component c self = (Return target, self) ->
  is_ready self = true
  /\ load dev depth c wait self
     = (Raise (Exception "Sample Changer is in Charging mode"), self)
  /\ unload dev c wait self
     = (Raise (Exception "Sample Changer is in Charging mode"), self)
  /\ fst (reset dev false self)
     = Return (PTask (Greenlet Resetting DoReset)).
Proof.
  intros Hs Hres.
  assert (Hready : is_ready self = true).
  { unfold is_ready. rewrite Hs. reflexivity. }
  repeat split.
  - exact Hready.
  - destruct depth; cbn [load]; unfold bind at 1; rewrite Hres;
      unfold bind at 1, assert_not_charging at 1; rewrite Hs; reflexivity.
  - unfold unload. unfold bind at 1. rewrite Hres.
    unfold bind at 1, assert_not_charging at 1. rewrite Hs. reflexivity.
  - unfold reset. rewrite (_execute_task_ready dev self _ false _ Hready).
    reflexivity.
Qed.

(** X11: [unload] with no sample loaded raises "No sample is loaded" and
    leaves [self] untouched. *)
Theorem unload_needs_a_loaded_sample
  (self : SampleChanger) (c : component) (wait : bool) (target : option loc) :
  state self <> Charging ->
  _resolve_component c self = (Return target, self) ->
  get_loaded_sample self = None ->
  unload dev c wait self = (Raise (Exception "No sample is loaded"), self).
Proof.
  intros Hs Hres Hnone.
  unfold unload. unfold bind at 1. rewrite Hres.
  unfold bind at 1, assert_not_charging at 1.
  destruct (Z.eqb_spec (state self) Charging) as [E | _]; [contradiction | ].
  unfold pure at 1. unfold bind at 1, gets at 1, has_loaded_sample.
  rewrite Hnone. reflexivity.
Qed.

(** X12: [load] of the sample that is loaded, or of [None] while a sample
    is loaded, raises "The sample <address> is already loaded", naming the
    loaded sample, and leaves [self] untouched. *)
Theorem load_refuses_the_loaded_sample
  (self : SampleChanger) (depth : nat) (c : component) (wait : bool)
  (target : option loc) (cur : loc) :
  state self <> Charging ->
  _resolve_component c self = (Return target, self) ->
  get_loaded_sample self = Some cur ->
  target = None \/ target = Some cur ->
  load dev depth c wait self
  = (Raise (Exception ("The sample " +:+ get_address self cur
                       +:+ " is already loaded")), self).
Proof.
  intros Hs Hres Hcur Ht.
  destruct depth; cbn [load]; unfold bind at 1; rewrite Hres;
    unfold bind at 1, assert_not_charging at 1;
    (destruct (Z.eqb_spec (state self) Charging) as [E | _];
       [contradiction | ]);
    unfold pure at 1; unfold bind at 1, gets at 1; rewrite Hcur;
    rewrite bool_decide_eq_true_2 by exact Ht; reflexivity.
Qed.

(** X13: while a sample is loaded, [load] does not look at [wait]: the
    chained load waits for both of its phases, so that [load(wait=False)]
    does what [load(wait=True)] does. *)
Theorem load_ignores_wait_when_loaded
  (self : SampleChanger) (depth : nat) (c : component) :
  get_loaded_sample self <> None ->
  load dev depth c false self = load dev depth c true self.
Proof.
  intros Hcur.
  destruct (get_loaded_sample self) as [cur | ] eqn:E; [ | contradiction].
  destruct depth, c as [ | a | l]; cbn [load];
    unfold bind, _resolve_component, pure, raise, assert_not_charging, gets;
    try destruct (get_component_by_address self a);
    cbv beta iota; try reflexivity;
    (destruct (state self =? Charging); cbv beta iota delta [pure raise];
       [reflexivity | rewrite E; reflexivity]).
Qed.

End RefusedCommands.

(** ** The life of a task *)

Section TaskLife.

Import SampleChangerState.

Variable dev : Device.

Lemma ready_is_no_task_state (self : SampleChanger) (kind : Z) :
  is_ready self = true -> is_task_state kind = true -> state self <> kind.
Proof.
  intros Hr Hk E.
  assert (H : is_ready self = false).
  { apply task_state_not_ready. rewrite E. exact Hk. }
  congruence.
Qed.

(** X14: a task started with [wait=False] runs no device hook before the
    call returns: the outcome is the same on every device.  When accepted
    it returns the handle of the unit, with the slot taken, the error
    cleared, the state at the task kind, and the transition published. *)
Theorem starting_without_wait (self : SampleChanger) (kind : Z) (m : method) :
  (forall dev',
     _execute_task dev kind false m self
     = _execute_task dev' kind false m self)
  /\ (is_ready self = true -> is_task_state kind = true ->
      exists started,
        _execute_task dev kind false m self
        = (Return (PTask (Greenlet kind m)), started)
        /\ state started = kind
        /\ task started = Some kind
        /\ task_proc started = Some (Greenlet kind m)
        /\ task_error started = None
        /\ emitted started =
           emitted self ++ STATE_CHANGED_EVENT kind (state self)
             :: (if String.eqb (status self) (tostring kind) then []
                 else [STATUS_CHANGED_EVENT (tostring kind)])).
Proof.
  split.
  - intros dev'. destruct (is_ready self) eqn:Hr.
    + rewrite !(_execute_task_ready _ self kind false m Hr). reflexivity.
    + rewrite !(_execute_task_not_ready _ self kind false m Hr). reflexivity.
  - intros Hr Hk.
    rewrite (_execute_task_ready dev self kind false m Hr). cbv zeta.
    set (armed := set_task_error None (set_task (Some kind) self)).
    pose proof (_set_state_state armed kind) as Hs.
    pose proof (_set_state_slot armed (Some kind) None) as (Ht & _ & He & _).
    pose proof (_set_state_emitted armed kind
                  (ready_is_no_task_state self kind Hr Hk)) as Hlog.
    eexists. split; [reflexivity | ].
    repeat split; assumption.
Qed.

(** X15: a callback that raises something that is not an [Exception]
    ([KeyboardInterrupt] or [SystemExit], say) is not caught by [_run]:
    the refresh is not run, the slot is not cleared and task-finished is
    not published; [self] stays as the callback left it. *)
Theorem base_exception_skips_the_cleanup
  (self failed : SampleChanger) (kind : Z) (m : method) (msg : string) :
  is_ready self = true ->
  call dev m (snd (_execute_task dev kind false m self))
  = (Raise (BaseException msg), failed) ->
  _execute_task dev kind true m self = (Raise (BaseException msg), failed).
Proof.
  intros Hr.
  rewrite (_execute_task_ready dev self kind false m Hr),
    (_execute_task_ready dev self kind true m Hr). cbv zeta.
  cbn [snd]. intros Hcall.
  unfold greenlet_get, _run, bind, try_except_Exception. cbn [g_method].
  rewrite Hcall. reflexivity.
Qed.

(** X16: when the refresh hook raises after the callback has returned or
    has raised an [Exception], [_run] raises the error of the hook: the
    outcome of the callback is lost, the slot is not cleared and
    task-finished is not published. *)
Theorem refresh_error_replaces_the_outcome
  (g : greenlet) (self called failed : SampleChanger)
  (out : outcome pyval) (e : exn) :
  call dev (g_method g) self = (out, called) ->
  (forall msg, out <> Raise (BaseException msg)) ->
  _do_update_info dev called = (Raise e, failed) ->
  _run dev g self = (Raise e, failed).
Proof.
  intros Hcall Hout Hhook.
  unfold _run, bind, try_except_Exception. rewrite Hcall.
  destruct out as [v | [msg | msg]];
    [ | | exfalso; apply (Hout msg); reflexivity];
    rewrite (update_info_raises dev called failed e Hhook); reflexivity.
Qed.

(** The unit whose callback returns, followed by a refresh whose hook
    returns. *)
Lemma _run_callback_returns (g : greenlet)
  (self called refreshed : SampleChanger) (v : pyval) :
  call dev (g_method g) self = (Return v, called) ->
  _do_update_info dev called = (Return tt, refreshed) ->
  exists after log,
    _run dev g self = (Return v, after)
    /\ state after = state refreshed
    /\ task_error after = task_error refreshed
    /\ task after = None /\ task_proc after = None
    /\ emitted after = log ++ [TASK_FINISHED_EVENT (task refreshed) v None].
Proof.
  intros Hcall Hhook.
  destruct (update_info_returns dev called refreshed Hhook)
    as (info & Hinfo & Hs & Ht & _ & He & _).
  unfold _run, bind, try_except_Exception. rewrite Hcall, Hinfo.
  cbn. rewrite Ht.
  exists (emit (TASK_FINISHED_EVENT (task refreshed) v None)
            (set_task_proc None (set_task None info))), (emitted info).
  repeat split; assumption.
Qed.

(** X17: a waited task whose callback returns [v] returns [v], clears the
    slot and publishes task-finished with [v] and no error, last; its state
    is the one the refresh hook left, so that if the hook has not brought
    the changer back to a ready state every later task is refused, although
    the task succeeded. *)
Theorem returning_task_outcome
  (self called refreshed : SampleChanger) (kind : Z) (m : method) (v : pyval) :
  is_ready self = true ->
  call dev m (snd (_execute_task dev kind false m self)) = (Return v, called) ->
  _do_update_info dev called = (Return tt, refreshed) ->
  exists after log,
    _execute_task dev kind true m self = (Return v, after)
    /\ state after = state refreshed
    /\ task after = None /\ task_proc after = None
    /\ emitted after = log ++ [TASK_FINISHED_EVENT (task refreshed) v None]
    /\ (is_ready refreshed = false ->
        forall kind' wait' m',
          _execute_task dev kind' wait' m' after
          = (Raise (bad_state (state refreshed)), after)).
Proof.
  intros Hr.
  rewrite (_execute_task_ready dev self kind false m Hr),
    (_execute_task_ready dev self kind true m Hr). cbv zeta.
  cbn [snd]. intros Hcall Hhook.
  destruct (_run_callback_returns (Greenlet kind m) _ called refreshed v
              Hcall Hhook)
    as (after & log & Hrun & Hs & _ & Ht & Hp & Hlog).
  exists after, log. unfold greenlet_get. rewrite Hrun.
  repeat split; try assumption.
  intros Hnr kind' wait' m'. rewrite <- Hs.
  apply _execute_task_not_ready.
  unfold is_ready in *. rewrite Hs. exact Hnr.
Qed.

(** X18: [select] publishes selection-changed last, and only when its task
    call returns: when [_execute_task] raises, [select] raises the same
    error from the same [self]; and with [wait=False] the event is
    published while the unit is still pending. *)
Theorem select_publishes_selection_last
  (self : SampleChanger) (c : component) (wait : bool) (target : option loc) :
  _resolve_component c self = (Return target, self) ->
  (forall v after,
     select dev c wait self = (Return v, after) ->
     exists before,
       _execute_task dev Selecting wait (DoSelect target) self
       = (Return v, before)
       /\ after = emit SELECTION_CHANGED_EVENT before)
  /\ (forall e failed,
        _execute_task dev Selecting wait (DoSelect target) self
        = (Raise e, failed) ->
        select dev c wait self = (Raise e, failed))
  /\ (is_ready self = true ->
      exists started,
        select dev c false self
        = (Return (PTask (Greenlet Selecting (DoSelect target))),
           emit SELECTION_CHANGED_EVENT started)
        /\ task_proc started = Some (Greenlet Selecting (DoSelect target))).
Proof.
  intros Hres. unfold select. split; [ | split].
  - intros v after. unfold bind at 1. rewrite Hres. unfold bind at 1.
    destruct (_execute_task dev Selecting wait (DoSelect target) self)
      as [[v0 | e] s1]; [ | discriminate].
    cbn. intros [= <- <-]. exists s1. split; reflexivity.
  - intros e failed H. unfold bind at 1. rewrite Hres. unfold bind at 1.
    rewrite H. reflexivity.
  - intros Hr. unfold bind at 1. rewrite Hres. unfold bind at 1.
    rewrite (_execute_task_ready dev self _ false _ Hr). cbv zeta.
    eexists. split; reflexivity.
Qed.

(** X19: [change_mode] on a disabled changer (for a mode other than
    [Unknown] and than the value of the state) first moves it to [Unknown]
    and refreshes it, then starts the task from what the refresh left; if
    that is not a ready state the call raises there, and the changer is
    left as the refresh left it. *)
Theorem change_mode_from_disabled
  (self refreshed : SampleChanger) (mode : Z) (wait : bool) :
  state self = Disabled ->
  mode <> SampleChangerMode.Unknown ->
  mode <> Disabled ->
  update_info dev (snd (_set_state (Some Unknown) None self))
  = (Return tt, refreshed) ->
  change_mode dev mode wait self
  = _execute_task dev ChangingMode wait (DoChangeMode mode) refreshed
  /\ (is_ready refreshed = false ->
      change_mode dev mode wait self
      = (Raise (bad_state (state refreshed)), refreshed)).
Proof.
  intros Hs Hu Hd Hinfo.
  assert (Heq : change_mode dev mode wait self
                = _execute_task dev ChangingMode wait (DoChangeMode mode)
                    refreshed).
  { unfold change_mode, get_state.
    destruct (Z.eqb_spec mode SampleChangerMode.Unknown) as [E | _];
      [contradiction | ].
    rewrite Hs.
    destruct (Z.eqb_spec mode Disabled) as [E | _]; [contradiction | ].
    rewrite Z.eqb_refl. unfold bind at 1. unfold bind at 1.
    pose proof (_set_state_returns self (Some Unknown) None) as Hr.
    destruct (_set_state (Some Unknown) None self) as [r s1].
    simpl in Hr, Hinfo. subst r. rewrite Hinfo. reflexivity. }
  split; [exact Heq | ].
  intros Hnr. rewrite Heq. apply _execute_task_not_ready, Hnr.
Qed.

End TaskLife.

(** ** The update loop *)

Section UpdateLoop.

Variable dev : Device.

Lemma update_timer_cycle_returns (self : SampleChanger) :
  fst (update_timer_cycle dev self) = Return tt.
Proof.
  unfold update_timer_cycle, try_except_BaseException_pass.
  match goal with
  | |- context [match ?c self with _ => _ end] =>
      destruct (c self) as [[[] | e] s1]
  end; reflexivity.
Qed.

(** X20: a turn of the update loop never raises, whatever the refresh
    does; on a disabled changer it does nothing at all: the counter is not
    incremented and the refresh hook is not called. *)
Theorem update_timer_cycle_never_raises (self : SampleChanger) :
  fst (update_timer_cycle dev self) = Return tt
  /\ (is_enabled self = false ->
      update_timer_cycle dev self = (Return tt, self)).
Proof.
  split; [apply update_timer_cycle_returns | ].
  intros H. unfold update_timer_cycle, try_except_BaseException_pass.
  unfold bind at 1, gets at 1. rewrite H. reflexivity.
Qed.

(** X21: the update loop survives the refresh: as long as its sleeps
    return, any number of turns returns, whatever [_do_update_info]
    raises. *)
Theorem update_timer_task_survives (n : nat) (self : SampleChanger) :
  (forall s, fst (gevent_sleep dev s) = Return tt) ->
  fst (__update_timer_task dev n self) = Return tt.
Proof.
  intros Hsleep. revert self.
  induction n as [ | n IH]; intros self; simpl; [reflexivity | ].
  unfold bind at 1.
  pose proof (Hsleep self) as Hs.
  destruct (gevent_sleep dev self) as [r s1]. simpl in Hs. subst r.
  unfold bind at 1.
  pose proof (update_timer_cycle_returns s1) as Hc.
  destruct (update_timer_cycle dev s1) as [r s2]. simpl in Hc. subst r.
  apply IH.
Qed.

End UpdateLoop.

(** ** Reading the registry *)

Section ReadingTheRegistry.

(** X22: [get_loaded_sample()] returns a sample of the tree whose flag is
    set; it returns [None] exactly when no sample of the tree is flagged;
    and when at most one sample is flagged, it returns that one. *)
Theorem get_loaded_sample_finds_the_loaded_sample (self : SampleChanger) :
  (forall s, get_loaded_sample self = Some s ->
             In s (get_sample_list self) /\ is_loaded self s = true)
  /\ (get_loaded_sample self = None <->
      forall s, In s (get_sample_list self) -> is_loaded self s = false)
  /\ (at_most_one_loaded self ->
      forall s, In s (get_sample_list self) -> is_loaded self s = true ->
                get_loaded_sample self = Some s).
Proof.
  unfold get_loaded_sample. split; [ | split].
  - intros s H. apply find_some in H. exact H.
  - split.
    + intros H s Hin. exact (find_none _ _ H s Hin).
    + intros H. destruct (find (is_loaded self) (get_sample_list self))
        as [x | ] eqn:E; [ | reflexivity].
      apply find_some in E. destruct E as [Hin Hx].
      rewrite (H x Hin) in Hx. discriminate.
  - intros Hone s Hin Hs.
    destruct (find (is_loaded self) (get_sample_list self)) as [x | ] eqn:E.
    + apply find_some in E. destruct E as [Hxin Hx].
      f_equal. exact (Hone x s Hxin Hin Hx Hs).
    + rewrite (find_none _ _ E s Hin) in Hs. discriminate.
Qed.

(** X23: setting and reading back: after [_set_loaded_sample(s)] for a
    sample [s] of the tree, [get_loaded_sample()] is [s]; after
    [_reset_loaded_sample()], or after [_set_loaded_sample] of [None] or of
    an object that is not a sample of the tree, it is [None]. *)
Theorem set_then_get_loaded_sample (self : SampleChanger) :
  (forall s o,
     In s (get_sample_list self) -> heap self !! s = Some o ->
     get_loaded_sample (snd (_set_loaded_sample (Some s) self)) = Some s)
  /\ get_loaded_sample (snd (_reset_loaded_sample self)) = None
  /\ (forall sample,
        (forall s, sample = Some s -> ~ In s (get_sample_list self)) ->
        get_loaded_sample (snd (_set_loaded_sample sample self)) = None).
Proof.
  split; [ | split].
  - intros s o Hin Ho.
    destruct (get_loaded_sample (snd (_set_loaded_sample (Some s) self)))
      as [x | ] eqn:E; unfold get_loaded_sample in E.
    + apply find_some in E. destruct E as [Hxin Hx].
      change (In x (get_sample_list self)) in Hxin.
      rewrite (_set_loaded_sample_flags self (Some s) x Hxin) in Hx.
      destruct (heap self !! x); [ | discriminate].
      apply bool_decide_eq_true_1 in Hx. exact Hx.
    + pose proof (find_none _ _ E s Hin) as Hs. cbv beta in Hs.
      rewrite (_set_loaded_sample_flags self (Some s) s Hin), Ho in Hs.
      rewrite bool_decide_eq_true_2 in Hs by reflexivity. discriminate.
  - destruct (get_loaded_sample (snd (_reset_loaded_sample self)))
      as [x | ] eqn:E; [ | reflexivity]. unfold get_loaded_sample in E.
    apply find_some in E. destruct E as [Hxin Hx].
    change (In x (get_sample_list self)) in Hxin.
    rewrite (_reset_loaded_sample_flags self x Hxin) in Hx. discriminate.
  - intros sample Hout.
    destruct (get_loaded_sample (snd (_set_loaded_sample sample self)))
      as [x | ] eqn:E; [ | reflexivity]. unfold get_loaded_sample in E.
    apply find_some in E. destruct E as [Hxin Hx].
    change (In x (get_sample_list self)) in Hxin.
    rewrite (_set_loaded_sample_flags self sample x Hxin) in Hx.
    destruct (heap self !! x); [ | discriminate].
    apply bool_decide_eq_true_1 in Hx.
    exfalso. apply (Hout x); [symmetry; exact Hx | exact Hxin].
Qed.

End ReadingTheRegistry.

(** ** Refreshing twice *)

Section RefreshingTwice.

Variable dev : Device.

(** The loop of [_reset_dirty] clears the mark of the listed objects and
    leaves the others alone. *)
Lemma lookup_after_reset_dirty (l : list loc) (h : gmap loc Sample) (s : loc) :
  fold_left (fun h s => alter _clear_dirty s h) l h !! s =
  if bool_decide (s ∈ l) then _clear_dirty <$> h !! s else h !! s.
Proof.
  revert h. induction l as [ | a l IH]; intros h; cbn [fold_left].
  - rewrite bool_decide_eq_false_2 by apply not_elem_of_nil. reflexivity.
  - rewrite IH. destruct (decide (a = s)) as [-> | Hne].
    + rewrite lookup_alter_eq.
      rewrite (bool_decide_eq_true_2 (s ∈ s :: l)) by apply list_elem_of_here.
      destruct (h !! s); simpl; destruct (bool_decide (s ∈ l)); reflexivity.
    + rewrite lookup_alter_ne by exact Hne.
      destruct (decide (s ∈ l)) as [Hin | Hout].
      * rewrite bool_decide_eq_true_2 by exact Hin.
        rewrite bool_decide_eq_true_2
          by (apply elem_of_cons; right; exact Hin).
        reflexivity.
      * rewrite bool_decide_eq_false_2 by exact Hout.
        rewrite bool_decide_eq_false_2
          by (apply not_elem_of_cons; split; [congruence | exact Hout]).
        reflexivity.
Qed.

Lemma update_info_result (self refreshed : SampleChanger) :
  _do_update_info dev self = (Return tt, refreshed) ->
  update_info dev self =
  (Return tt,
   let informed :=
     if _is_dirty refreshed then emit INFO_CHANGED_EVENT refreshed
     else refreshed in
   let published :=
     if bool_decide
          (loaded_sample_differs refreshed
             (get_loaded_sample refreshed) (get_loaded_sample self))
     then emit (LOADED_SAMPLE_CHANGED_EVENT (get_loaded_sample refreshed))
            informed
     else informed in
   set_heap (fold_left (fun h s => alter _clear_dirty s h)
               (get_sample_list refreshed) (heap refreshed)) published).
Proof.
  intros H. unfold update_info, bind, gets. rewrite H.
  destruct (_is_dirty refreshed);
    unfold _trigger_info_changed_event, modify;
    [ change (get_loaded_sample (emit INFO_CHANGED_EVENT refreshed))
        with (get_loaded_sample refreshed);
      change (get_address (emit INFO_CHANGED_EVENT refreshed))
        with (get_address refreshed)
    | unfold pure at 1 ];
    cbv beta iota; rewrite loaded_sample_differs_test;
    destruct (bool_decide
                (loaded_sample_differs refreshed
                   (get_loaded_sample refreshed) (get_loaded_sample self)));
    reflexivity.
Qed.

Lemma update_info_store (self refreshed : SampleChanger) :
  _do_update_info dev self = (Return tt, refreshed) ->
  components (snd (update_info dev self)) = components refreshed
  /\ heap (snd (update_info dev self)) =
     fold_left (fun h s => alter _clear_dirty s h)
       (get_sample_list refreshed) (heap refreshed).
Proof.
  intros H. rewrite (update_info_result self refreshed H). cbn [snd].
  destruct (_is_dirty refreshed);
    destruct (bool_decide
                (loaded_sample_differs refreshed
                   (get_loaded_sample refreshed) (get_loaded_sample self)));
    split; reflexivity.
Qed.

Lemma find_agrees {A} (f g : A -> bool) (l : list A) :
  (forall x, In x l -> f x = g x) -> find f l = find g l.
Proof.
  induction l as [ | a l IH]; intros H; simpl; [reflexivity | ].
  rewrite (H a) by (left; reflexivity).
  destruct (g a); [reflexivity | ].
  apply IH. intros x Hx. apply H. right. exact Hx.
Qed.

(** X24: when its hook returns, [update_info] leaves a tree that is not
    dirty, with the loaded sample the hook left; a second refresh whose
    hook changes nothing then publishes no event. *)
Theorem update_info_settles (self refreshed : SampleChanger) :
  _do_update_info dev self = (Return tt, refreshed) ->
  let after := snd (update_info dev self) in
  _is_dirty after = false
  /\ get_loaded_sample after = get_loaded_sample refreshed
  /\ (_do_update_info dev after = (Return tt, after) ->
      emitted (snd (update_info dev after)) = emitted after).
Proof.
  intros H after.
  destruct (update_info_store self refreshed H) as [Hc Hh].
  fold after in Hc, Hh.
  assert (Hl : get_sample_list after = get_sample_list refreshed).
  { unfold get_sample_list. rewrite Hc. reflexivity. }
  assert (Hd : _is_dirty after = false).
  { unfold _is_dirty. rewrite Hl, Hh.
    destruct (existsb _ (get_sample_list refreshed)) eqn:E; [ | reflexivity].
    apply existsb_exists in E. destruct E as (x & Hin & Hx).
    rewrite lookup_after_reset_dirty in Hx.
    rewrite bool_decide_eq_true_2 in Hx by (apply list_elem_of_In; exact Hin).
    destruct (heap refreshed !! x); simpl in Hx; discriminate. }
  split; [exact Hd | split].
  - unfold get_loaded_sample. rewrite Hl.
    apply find_agrees. intros x Hin.
    unfold is_loaded, heap_is_loaded. rewrite Hh, lookup_after_reset_dirty.
    rewrite bool_decide_eq_true_2 by (apply list_elem_of_In; exact Hin).
    destruct (heap refreshed !! x); reflexivity.
  - intros H2.
    destruct (update_info_returns dev after after H2)
      as (again & -> & _ & _ & _ & _ & He).
    cbn [snd]. rewrite He, Hd.
    rewrite bool_decide_eq_false_2.
    + rewrite !app_nil_r. reflexivity.
    + intros [Hne _]. apply Hne. reflexivity.
Qed.

End RefreshingTwice.

(** ** The phases of a chained load *)

Section ChainedPhases.

Import SampleChangerState.

Variable dev : Device.

Lemma load_is_chained_load
  (self : SampleChanger) (depth : nat) (c : component) (wait : bool)
  (cur s : loc) :
  get_loaded_sample self = Some cur ->
  _resolve_component c self = (Return (Some s), self) ->
  s <> cur ->
  load dev (S depth) c wait self
  = chained_load dev (load dev depth) cur s self.
Proof.
  intros Hcur Hres Hne.
  cbn [load]. unfold bind at 1. rewrite Hres.
  unfold bind at 1. unfold assert_not_charging at 1.
  destruct (state self =? Charging) eqn:Hc.
  - unfold raise at 1.
    unfold chained_load, unload, bind, _resolve_component, pure,
      assert_not_charging.
    rewrite Hc. reflexivity.
  - unfold pure at 1. unfold bind at 1, gets at 1. rewrite Hcur.
    rewrite bool_decide_eq_false_2; [reflexivity | ].
    intros [H | H]; congruence.
Qed.

Lemma wait_ready_idle (polls : nat) (self : SampleChanger) :
  (forall s, gevent_sleep dev s = (Return tt, s)) ->
  is_ready self = false ->
  wait_ready dev polls self
  = (Raise (Exception "Timeout waiting ready"), self).
Proof.
  intros Hidle Hr. induction polls as [ | n IH]; simpl; rewrite Hr.
  - reflexivity.
  - unfold bind. rewrite Hidle. exact IH.
Qed.

(** X25: when the unload of a chained load leaves the changer ready, not
    charging and with no sample loaded, the load phase is the task
    [Loading] on the requested sample, started from there without a sleep
    and waited for, whatever [wait] the caller gave. *)
Theorem chained_load_reaches_the_load_task
  (self unloaded : SampleChanger) (depth : nat) (c : component) (wait : bool)
  (cur s : loc) (v : pyval) :
  get_loaded_sample self = Some cur ->
  _resolve_component c self = (Return (Some s), self) ->
  s <> cur ->
  unload dev (CObject cur) true self = (Return v, unloaded) ->
  is_ready unloaded = true ->
  state unloaded <> Charging ->
  get_loaded_sample unloaded = None ->
  load dev (S depth) c wait self
  = _execute_task dev Loading true (DoLoad (Some s)) unloaded.
Proof.
  intros Hcur Hres Hne Hun Hr Hc Hnone.
  rewrite (load_is_chained_load self depth c wait cur s Hcur Hres Hne).
  unfold chained_load. unfold bind at 1. rewrite Hun.
  unfold bind at 1.
  replace (wait_ready dev (clock_polls dev 10) unloaded)
    with (@Return unit tt, unloaded)
    by (destruct (clock_polls dev 10); simpl; rewrite Hr; reflexivity).
  destruct depth; cbn [load]; unfold bind at 1, _resolve_component, pure;
    unfold bind at 1, assert_not_charging;
    (destruct (Z.eqb_spec (state unloaded) Charging) as [E | _];
       [contradiction | ]);
    unfold pure; unfold bind at 1, gets at 1; rewrite Hnone; reflexivity.
Qed.

(** X26: when the unload of a chained load returns but leaves the changer
    in a state that is not ready, and nothing moves the state during the
    sleeps, [load] raises "Timeout waiting ready": the load phase does not
    start, and [self] is as the unload left it. *)
Theorem chained_load_times_out
  (self unloaded : SampleChanger) (depth : nat) (c : component) (wait : bool)
  (cur s : loc) (v : pyval) :
  get_loaded_sample self = Some cur ->
  _resolve_component c self = (Return (Some s), self) ->
  s <> cur ->
  unload dev (CObject cur) true self = (Return v, unloaded) ->
  is_ready unloaded = false ->
  (forall s0, gevent_sleep dev s0 = (Return tt, s0)) ->
  load dev (S depth) c wait self
  = (Raise (Exception "Timeout waiting ready"), unloaded).
Proof.
  intros Hcur Hres Hne Hun Hr Hidle.
  rewrite (load_is_chained_load self depth c wait cur s Hcur Hres Hne).
  unfold chained_load. unfold bind at 1. rewrite Hun.
  unfold bind at 1.
  rewrite (wait_ready_idle _ unloaded Hidle Hr). reflexivity.
Qed.

(** X27: a waited task whose callback raises an [Exception], on any
    device whose refresh hook returns: the exception is re-raised to the
    caller and carried by task-finished, published last; the slot is
    cleared; the state and [task_error] are the ones the refresh hook
    left. *)
Theorem failing_task_outcome
  (self called refreshed : SampleChanger) (kind : Z) (m : method)
  (msg : string) :
  is_ready self = true ->
  call dev m (snd (_execute_task dev kind false m self))
  = (Raise (Exception msg), called) ->
  _do_update_info dev called = (Return tt, refreshed) ->
  exists after log,
    _execute_task dev kind true m self = (Raise (Exception msg), after)
    /\ state after = state refreshed
    /\ task_error after = task_error refreshed
    /\ task after = None /\ task_proc after = None
    /\ emitted after =
       log ++ [TASK_FINISHED_EVENT (task refreshed) PNone
                 (Some (Exception msg))].
Proof.
  intros Hr.
  rewrite (_execute_task_ready dev self kind false m Hr),
    (_execute_task_ready dev self kind true m Hr). cbv zeta.
  cbn [snd]. intros Hcall Hhook.
  destruct (_run_callback_raises dev (Greenlet kind m) _ called refreshed msg
              Hcall Hhook)
    as (after & log & Hrun & Hrest).
  exists after, log. unfold greenlet_get. rewrite Hrun.
  split; [reflexivity | exact Hrest].
Qed.

(** X28: the state predicates are nested: a ready state is normal, enabled
    and finished; a state that is not normal ([Disabled], [Alarm], [Fault],
    [Unknown]) is never ready. *)
Theorem ready_states_are_normal (self : SampleChanger) :
  (is_ready self = true ->
   is_normal_state self = true /\ is_enabled self = true
   /\ is_task_finished self = true)
  /\ (is_normal_state self = false <->
      state self = Disabled \/ state self = Alarm
      \/ state self = Fault \/ state self = Unknown)
  /\ (is_normal_state self = false -> is_ready self = false).
Proof.
  unfold is_task_finished, is_normal_state, is_ready, is_enabled,
    Ready, Loaded, Charging, StandBy, Disabled, Alarm, Fault, Unknown.
  rewrite !orb_true_iff, !andb_true_iff, !negb_true_iff,
    !andb_false_iff, !negb_false_iff, !orb_false_iff,
    !Z.eqb_eq, !Z.eqb_neq.
  lia.
Qed.

End ChainedPhases.

(** ** The further properties at concrete inputs *)

Lemma tostring_injective_witness :
  is_described SampleChangerState.Disabled = true
  /\ SampleChangerState.tostring SampleChangerState.Disabled
     = SampleChangerState.tostring 12
  /\ SampleChangerState.Disabled = 12.
Proof.
  split; [reflexivity | split; [reflexivity | ]].
  apply (tostring_injective SampleChangerState.Disabled 12); reflexivity.
Defined.

Lemma wait_ready_returns_ready_witness :
  is_ready (changer SampleChangerState.StandBy) = true
  /\ wait_ready SampleChangerMockup 1000 (changer SampleChangerState.StandBy)
     = (Return tt, changer SampleChangerState.StandBy).
Proof.
  split; [reflexivity | ].
  apply (proj1 (wait_ready_returns_ready SampleChangerMockup 1000
                  (changer SampleChangerState.StandBy))).
  reflexivity.
Defined.

Lemma wait_ready_times_out_witness :
  is_ready (changer SampleChangerState.Loading) = false
  /\ wait_ready SampleChangerMockup 1000 (changer SampleChangerState.Loading)
     = (Raise (Exception "Timeout waiting ready"),
        changer SampleChangerState.Loading).
Proof.
  split; [reflexivity | ].
  apply (wait_ready_times_out SampleChangerMockup 1000
           (changer SampleChangerState.Loading));
    [intros s; reflexivity | reflexivity].
Defined.

Lemma commands_reject_unresolved_address_witness :
  get_component_by_address (changer SampleChangerState.Ready) "9:9" = None
  /\ load SampleChangerMockup 3 (CAddress "9:9") true
       (changer SampleChangerState.Ready)
     = (Raise (Exception "Invalid component: 9:9"),
        changer SampleChangerState.Ready).
Proof.
  split; [reflexivity | ].
  apply (proj1 (commands_reject_unresolved_address SampleChangerMockup
                  (changer SampleChangerState.Ready) "9:9" 3 true eq_refl)).
Defined.

Lemma charging_refuses_load_and_unload_witness :
  state (changer SampleChangerState.Charging) = SampleChangerState.Charging
  /\ _resolve_component (CAddress "1:2") (changer SampleChangerState.Charging)
     = (Return (Some 2%positive), changer SampleChangerState.Charging)
  /\ load SampleChangerMockup 3 (CAddress "1:2") true
       (changer SampleChangerState.Charging)
     = (Raise (Exception "Sample Changer is in Charging mode"),
        changer SampleChangerState.Charging).
Proof.
  split; [reflexivity | split; [reflexivity | ]].
  apply (proj1 (proj2 (charging_refuses_load_and_unload SampleChangerMockup
                         (changer SampleChangerState.Charging) 3
                         (CAddress "1:2") true (Some 2%positive)
                         eq_refl eq_refl))).
Defined.

Lemma unload_needs_a_loaded_sample_witness :
  state (changer SampleChangerState.Ready) <> SampleChangerState.Charging
  /\ get_loaded_sample (changer SampleChangerState.Ready) = None
  /\ unload SampleChangerMockup CNone true (changer SampleChangerState.Ready)
     = (Raise (Exception "No sample is loaded"),
        changer SampleChangerState.Ready).
Proof.
  split; [discriminate | split; [reflexivity | ]].
  apply (unload_needs_a_loaded_sample SampleChangerMockup
           (changer SampleChangerState.Ready) CNone true None);
    [discriminate | reflexivity | reflexivity].
Defined.

Lemma load_refuses_the_loaded_sample_witness :
  get_loaded_sample (changer_with_1_2 SampleChangerState.Ready)
  = Some 2%positive
  /\ load SampleChangerMockup 3 (CAddress "1:2") true
       (changer_with_1_2 SampleChangerState.Ready)
     = (Raise (Exception "The sample 1:2 is already loaded"),
        changer_with_1_2 SampleChangerState.Ready).
Proof.
  split; [reflexivity | ].
  apply (load_refuses_the_loaded_sample SampleChangerMockup
           (changer_with_1_2 SampleChangerState.Ready) 3 (CAddress "1:2")
           true (Some 2%positive) 2%positive);
    [discriminate | reflexivity | reflexivity | right; reflexivity].
Defined.

Lemma load_ignores_wait_when_loaded_witness :
  get_loaded_sample (changer_with_1_2 SampleChangerState.Ready) <> None
  /\ load bench_device 3 (CAddress "2:1") false
       (changer_with_1_2 SampleChangerState.Ready)
     = load bench_device 3 (CAddress "2:1") true
         (changer_with_1_2 SampleChangerState.Ready).
Proof.
  split; [vm_compute; discriminate | ].
  apply (load_ignores_wait_when_loaded bench_device
           (changer_with_1_2 SampleChangerState.Ready) 3 (CAddress "2:1")).
  vm_compute. discriminate.
Defined.

Lemma starting_without_wait_witness :
  is_ready (changer SampleChangerState.Ready) = true
  /\ is_task_state SampleChangerState.Scanning = true
  /\ exists started,
      _execute_task SampleChangerMockup SampleChangerState.Scanning false
        (DoScan None true) (changer SampleChangerState.Ready)
      = (Return (PTask (Greenlet SampleChangerState.Scanning
                          (DoScan None true))), started)
      /\ state started = SampleChangerState.Scanning
      /\ task started = Some SampleChangerState.Scanning.
Proof.
  split; [reflexivity | split; [reflexivity | ]].
  destruct (proj2 (starting_without_wait SampleChangerMockup
                     (changer SampleChangerState.Ready)
                     SampleChangerState.Scanning (DoScan None true))
              eq_refl eq_refl)
    as (started & H1 & H2 & H3 & _).
  exists started. split; [exact H1 | split; [exact H2 | exact H3]].
Defined.

Lemma base_exception_skips_the_cleanup_witness :
  is_ready (changer SampleChangerState.Ready) = true
  /\ _execute_task (raising_device (BaseException "KeyboardInterrupt"))
       SampleChangerState.Loading true (DoLoad (Some 2%positive))
       (changer SampleChangerState.Ready)
     = (Raise (BaseException "KeyboardInterrupt"),
        snd (_execute_task (raising_device (BaseException "KeyboardInterrupt"))
               SampleChangerState.Loading false (DoLoad (Some 2%positive))
               (changer SampleChangerState.Ready))).
Proof.
  split; [reflexivity | ].
  apply (base_exception_skips_the_cleanup
           (raising_device (BaseException "KeyboardInterrupt"))
           (changer SampleChangerState.Ready)); reflexivity.
Defined.

Lemma refresh_error_replaces_the_outcome_witness :
  call (unreachable_device (Exception "device unreachable"))
    (DoSelect None) (changer SampleChangerState.Selecting)
  = (Return PNone, changer SampleChangerState.Selecting)
  /\ _run (unreachable_device (Exception "device unreachable"))
       (Greenlet SampleChangerState.Selecting (DoSelect None))
       (changer SampleChangerState.Selecting)
     = (Raise (Exception "device unreachable"),
        changer SampleChangerState.Selecting).
Proof.
  split; [reflexivity | ].
  apply (refresh_error_replaces_the_outcome
           (unreachable_device (Exception "device unreachable"))
           (Greenlet SampleChangerState.Selecting (DoSelect None))
           (changer SampleChangerState.Selecting)
           (changer SampleChangerState.Selecting)
           (changer SampleChangerState.Selecting) (Return PNone));
    [reflexivity | discriminate | reflexivity].
Defined.

Lemma returning_task_outcome_witness :
  is_ready (changer SampleChangerState.Ready) = true
  /\ exists after log,
      _execute_task SampleChangerMockup SampleChangerState.Selecting true
        (DoSelect (Some 2%positive)) (changer SampleChangerState.Ready)
      = (Return PNone, after)
      /\ state after = SampleChangerState.Selecting
      /\ emitted after =
         log ++ [TASK_FINISHED_EVENT (Some SampleChangerState.Selecting)
                   PNone None]
      /\ _execute_task SampleChangerMockup SampleChangerState.Resetting true
           DoReset after
         = (Raise (Exception "Cannot execute task: bad state (Selecting)"),
            after).
Proof.
  split; [reflexivity | ].
  destruct (returning_task_outcome SampleChangerMockup
              (changer SampleChangerState.Ready)
              (snd (_execute_task SampleChangerMockup
                      SampleChangerState.Selecting false
                      (DoSelect (Some 2%positive))
                      (changer SampleChangerState.Ready)))
              (snd (_execute_task SampleChangerMockup
                      SampleChangerState.Selecting false
                      (DoSelect (Some 2%positive))
                      (changer SampleChangerState.Ready)))
              SampleChangerState.Selecting (DoSelect (Some 2%positive)) PNone
              eq_refl eq_refl eq_refl)
    as (after & log & H1 & H2 & _ & _ & H5 & H6).
  exists after, log.
  split; [exact H1 | split; [exact H2 | split; [exact H5 | ]]].
  apply (H6 eq_refl).
Defined.

Lemma select_publishes_selection_last_witness :
  _resolve_component (CAddress "1:2") (changer SampleChangerState.Ready)
  = (Return (Some 2%positive), changer SampleChangerState.Ready)
  /\ exists started,
      select SampleChangerMockup (CAddress "1:2") false
        (changer SampleChangerState.Ready)
      = (Return (PTask (Greenlet SampleChangerState.Selecting
                          (DoSelect (Some 2%positive)))),
         emit SELECTION_CHANGED_EVENT started)
      /\ task_proc started
         = Some (Greenlet SampleChangerState.Selecting
                   (DoSelect (Some 2%positive))).
Proof.
  split; [reflexivity | ].
  apply (proj2 (proj2 (select_publishes_selection_last SampleChangerMockup
                         (changer SampleChangerState.Ready) (CAddress "1:2")
                         false (Some 2%positive) eq_refl))).
  reflexivity.
Defined.

Lemma change_mode_from_disabled_witness :
  state (changer SampleChangerState.Disabled) = SampleChangerState.Disabled
  /\ change_mode SampleChangerMockup SampleChangerMode.Charging true
       (changer SampleChangerState.Disabled)
     = (Raise (Exception "Cannot execute task: bad state (Unknown)"),
        snd (update_info SampleChangerMockup
               (snd (_set_state (Some SampleChangerState.Unknown) None
                       (changer SampleChangerState.Disabled))))).
Proof.
  split; [reflexivity | ].
  apply (proj2 (change_mode_from_disabled SampleChangerMockup
                  (changer SampleChangerState.Disabled)
                  (snd (update_info SampleChangerMockup
                          (snd (_set_state (Some SampleChangerState.Unknown)
                                  None (changer SampleChangerState.Disabled)))))
                  SampleChangerMode.Charging true eq_refl
                  ltac:(discriminate) ltac:(discriminate) eq_refl)).
  reflexivity.
Defined.

Lemma update_timer_task_survives_witness :
  fst (__update_timer_task
         (unreachable_device (Exception "device unreachable")) 5
         (changer SampleChangerState.Ready))
  = Return tt.
Proof.
  apply (update_timer_task_survives
           (unreachable_device (Exception "device unreachable")) 5
           (changer SampleChangerState.Ready)).
  intros s. reflexivity.
Defined.

Lemma set_then_get_loaded_sample_witness :
  In 4%positive (get_sample_list (changer_with_1_2 SampleChangerState.Ready))
  /\ get_loaded_sample
       (snd (_set_loaded_sample (Some 4%positive)
               (changer_with_1_2 SampleChangerState.Ready)))
     = Some 4%positive.
Proof.
  split; [vm_compute; tauto | ].
  apply (proj1 (set_then_get_loaded_sample
                  (changer_with_1_2 SampleChangerState.Ready))
           4%positive (pin "2:1" false)).
  - vm_compute. tauto.
  - reflexivity.
Defined.

Lemma update_info_settles_witness :
  _do_update_info bench_device (changer_with_1_2 SampleChangerState.Loading)
  = (Return tt,
     snd (_do_update_info bench_device
            (changer_with_1_2 SampleChangerState.Loading)))
  /\ _is_dirty (snd (update_info bench_device
                       (changer_with_1_2 SampleChangerState.Loading)))
     = false.
Proof.
  split; [reflexivity | ].
  apply (update_info_settles bench_device
           (changer_with_1_2 SampleChangerState.Loading)
           (snd (_do_update_info bench_device
                   (changer_with_1_2 SampleChangerState.Loading)))
           eq_refl).
Defined.

Lemma chained_load_reaches_the_load_task_witness :
  unload bench_device (CObject 2%positive) true
    (changer_with_1_2 SampleChangerState.Ready)
  = (Return PNone,
     snd (unload bench_device (CObject 2%positive) true
            (changer_with_1_2 SampleChangerState.Ready)))
  /\ load bench_device 3 (CAddress "2:1") false
       (changer_with_1_2 SampleChangerState.Ready)
     = _execute_task bench_device SampleChangerState.Loading true
         (DoLoad (Some 4%positive))
         (snd (unload bench_device (CObject 2%positive) true
                 (changer_with_1_2 SampleChangerState.Ready))).
Proof.
  split; [vm_compute; reflexivity | ].
  apply (chained_load_reaches_the_load_task bench_device
           (changer_with_1_2 SampleChangerState.Ready)
           (snd (unload bench_device (CObject 2%positive) true
                   (changer_with_1_2 SampleChangerState.Ready)))
           2 (CAddress "2:1") false 2%positive 4%positive PNone);
    [ reflexivity | reflexivity | discriminate
    | vm_compute; reflexivity | vm_compute; reflexivity
    | vm_compute; discriminate | vm_compute; reflexivity ].
Defined.

Lemma chained_load_times_out_witness :
  is_ready (snd (unload SampleChangerMockup (CObject 2%positive) true
                   (changer_with_1_2 SampleChangerState.Ready))) = false
  /\ load SampleChangerMockup 3 (CAddress "2:1") false
       (changer_with_1_2 SampleChangerState.Ready)
     = (Raise (Exception "Timeout waiting ready"),
        snd (unload SampleChangerMockup (CObject 2%positive) true
               (changer_with_1_2 SampleChangerState.Ready))).
Proof.
  split; [vm_compute; reflexivity | ].
  apply (chained_load_times_out SampleChangerMockup
           (changer_with_1_2 SampleChangerState.Ready)
           (snd (unload SampleChangerMockup (CObject 2%positive) true
                   (changer_with_1_2 SampleChangerState.Ready)))
           2 (CAddress "2:1") false 2%positive 4%positive PNone);
    [ reflexivity | reflexivity | discriminate
    | vm_compute; reflexivity | vm_compute; reflexivity
    | intros s0; reflexivity ].
Defined.

Lemma failing_task_outcome_witness :
  is_ready (changer SampleChangerState.Ready) = true
  /\ exists after log,
      _execute_task (raising_device (Exception "gripper jammed"))
        SampleChangerState.Unloading true (DoUnload None)
        (changer SampleChangerState.Ready)
      = (Raise (Exception "gripper jammed"), after)
      /\ state after = SampleChangerState.Unloading
      /\ emitted after =
         log ++ [TASK_FINISHED_EVENT (Some SampleChangerState.Unloading)
                   PNone (Some (Exception "gripper jammed"))].
Proof.
  split; [reflexivity | ].
  destruct (failing_task_outcome (raising_device (Exception "gripper jammed"))
              (changer SampleChangerState.Ready)
              (snd (_execute_task (raising_device (Exception "gripper jammed"))
                      SampleChangerState.Unloading false (DoUnload None)
                      (changer SampleChangerState.Ready)))
              (snd (_execute_task (raising_device (Exception "gripper jammed"))
                      SampleChangerState.Unloading false (DoUnload None)
                      (changer SampleChangerState.Ready)))
              SampleChangerState.Unloading (DoUnload None) "gripper jammed"
              eq_refl eq_refl eq_refl)
    as (after & log & H1 & H2 & _ & _ & _ & H6).
  exists after, log.
  split; [exact H1 | split; [exact H2 | exact H6]].
Defined.

(** ** The two operations of a chained load *)

Section TwoOperations.

Import SampleChangerState.

Variable dev : Device.

(** C6: [load(S)] while another sample [current] is loaded is
    [unload(current)], then [wait_ready(timeout=10)], then [load(S)], one
    after the other.  The first operation is the task [Unloading] with the
    callback [_do_unload(current)], waited for; when it raises, [load(S)]
    raises the same error from the same [self], so that nothing of the load
    phase has run; when it returns, its slot is cleared and its
    task-finished event published, with the kind read back from the slot
    that the task had set to [Unloading], before the load phase starts.  The
    second operation, once the wait has returned on a changer with no sample
    loaded, is the task [Loading] with the callback [_do_load(S)], waited
    for. *)
Theorem load_chains_unload_then_load
  (self : SampleChanger) (depth : nat) (c : component) (wait : bool)
  (cur s : loc) :
  get_loaded_sample self = Some cur ->
  _resolve_component c self = (Return (Some s), self) ->
  s <> cur ->
  load dev (S depth) c wait self
  = (unload dev (CObject cur) true ;;
     wait_ready dev (clock_polls dev 10) ;;
     load dev depth (CObject s) true) self
  /\ (state self <> Charging ->
      unload dev (CObject cur) true self
      = _execute_task dev Unloading true (DoUnload (Some cur)) self)
  /\ (forall e failed,
        unload dev (CObject cur) true self = (Raise e, failed) ->
        load dev (S depth) c wait self = (Raise e, failed))
  /\ (forall v unloaded,
        unload dev (CObject cur) true self = (Return v, unloaded) ->
        task unloaded = None /\ task_proc unloaded = None
        /\ (exists log kind,
              emitted unloaded = log ++ [TASK_FINISHED_EVENT kind v None])
        /\ load dev (S depth) c wait self
           = (wait_ready dev (clock_polls dev 10) ;;
              load dev depth (CObject s) true) unloaded)
  /\ (forall v called refreshed,
        is_ready self = true ->
        state self <> Charging ->
        let started :=
          snd (_execute_task dev Unloading false (DoUnload (Some cur)) self) in
        call dev (DoUnload (Some cur)) started = (Return v, called) ->
        _do_update_info dev called = (Return tt, refreshed) ->
        task started = Some Unloading
        /\ exists unloaded log,
            unload dev (CObject cur) true self = (Return v, unloaded)
            /\ emitted unloaded
               = log ++ [TASK_FINISHED_EVENT (task refreshed) v None])
  /\ (forall v unloaded waited,
        unload dev (CObject cur) true self = (Return v, unloaded) ->
        wait_ready dev (clock_polls dev 10) unloaded = (Return tt, waited) ->
        state waited <> Charging ->
        get_loaded_sample waited = None ->
        load dev (S depth) c wait self
        = _execute_task dev Loading true (DoLoad (Some s)) waited).
Proof.
  intros Hcur Hres Hne.
  pose proof (load_is_chained_load dev self depth c wait cur s Hcur Hres Hne)
    as Hchain.
  unfold chained_load in Hchain.
  assert (Hfirst :
    state self <> Charging ->
    unload dev (CObject cur) true self
    = _execute_task dev Unloading true (DoUnload (Some cur)) self).
  { intros Hc. unfold unload.
    unfold bind at 1, _resolve_component, pure.
    unfold bind at 1, assert_not_charging.
    destruct (Z.eqb_spec (state self) Charging) as [E | _];
      [contradiction | ].
    unfold pure. unfold bind at 1, gets at 1, has_loaded_sample.
    rewrite Hcur. reflexivity. }
  split; [exact Hchain | ].
  split; [exact Hfirst | ].
  split; [ | split; [ | split]].
  - intros e failed H. rewrite Hchain. unfold bind at 1. rewrite H.
    reflexivity.
  - intros v unloaded H.
    destruct (unload_returns dev cur self unloaded v H) as (Ht & Hp & Hlog).
    repeat split; try assumption.
    rewrite Hchain. unfold bind at 1. rewrite H. reflexivity.
  - intros v called refreshed Hr Hc started Hcall Hhook.
    subst started.
    rewrite (_execute_task_ready dev self Unloading false _ Hr) in *.
    cbv zeta in *. cbn [snd] in *.
    split.
    { apply (_set_state_slot
               (set_task_error None (set_task (Some Unloading) self))
               (Some Unloading) None). }
    destruct (_run_callback_returns dev (Greenlet Unloading
                                           (DoUnload (Some cur)))
                _ called refreshed v Hcall Hhook)
      as (after & log & Hrun & _ & _ & _ & _ & Hlog).
    exists after, log. split; [ | exact Hlog].
    rewrite (Hfirst Hc).
    rewrite (_execute_task_ready dev self Unloading true _ Hr). cbv zeta.
    exact Hrun.
  - intros v unloaded waited Hun Hwait Hc Hnone.
    rewrite Hchain. unfold bind at 1. rewrite Hun.
    unfold bind at 1. rewrite Hwait.
    destruct depth; cbn [load]; unfold bind at 1, _resolve_component, pure;
      unfold bind at 1, assert_not_charging;
      (destruct (Z.eqb_spec (state waited) Charging) as [E | _];
         [contradiction | ]);
      unfold pure; unfold bind at 1, gets at 1; rewrite Hnone; reflexivity.
Qed.

End TwoOperations.

Lemma load_chains_unload_then_load_witness :
  get_loaded_sample (changer_with_1_2 SampleChangerState.Ready)
  = Some 2%positive
  /\ _resolve_component (CAddress "2:1")
       (changer_with_1_2 SampleChangerState.Ready)
     = (Return (Some 4%positive), changer_with_1_2 SampleChangerState.Ready)
  /\ 4%positive <> 2%positive
  /\ unload bench_device (CObject 2%positive) true
       (changer_with_1_2 SampleChangerState.Ready)
     = _execute_task bench_device SampleChangerState.Unloading true
         (DoUnload (Some 2%positive))
         (changer_with_1_2 SampleChangerState.Ready)
  /\ load bench_device 3 (CAddress "2:1") false
       (changer_with_1_2 SampleChangerState.Ready)
     = _execute_task bench_device SampleChangerState.Loading true
         (DoLoad (Some 4%positive))
         (snd (unload bench_device (CObject 2%positive) true
                 (changer_with_1_2 SampleChangerState.Ready))).
Proof.
  split; [reflexivity | split; [reflexivity | split; [discriminate | ]]].
  destruct (load_chains_unload_then_load bench_device
              (changer_with_1_2 SampleChangerState.Ready) 2 (CAddress "2:1")
              false 2%positive 4%positive eq_refl eq_refl
              ltac:(discriminate))
    as (_ & Hfirst & _ & _ & _ & Hsecond).
  split.
  - apply Hfirst. discriminate.
  - apply (Hsecond PNone
             (snd (unload bench_device (CObject 2%positive) true
                     (changer_with_1_2 SampleChangerState.Ready)))
             (snd (unload bench_device (CObject 2%positive) true
                     (changer_with_1_2 SampleChangerState.Ready))));
      [ vm_compute; reflexivity | vm_compute; reflexivity
      | vm_compute; discriminate | vm_compute; reflexivity ].
Defined.

(** ** The mode Disabled on a disabled changer *)

Section DisabledMode.

Import SampleChangerState.

Variable dev : Device.

(** C7 (what the code does): the value of [SampleChangerMode.Disabled] is
    11, the state [StandBy], while the state [Disabled] is 12.  On a changer
    in the state [Disabled], [change_mode(SampleChangerMode.Disabled)] is
    therefore not short-circuited: it sets the state to [Unknown],
    publishing state-changed, refreshes, and calls [_execute_task], which
    raises when the refresh has not made the changer ready.  On a changer in
    [StandBy], which is not disabled, the same call returns at once. *)
Theorem change_mode_disabled_is_not_short_circuited
  (self : SampleChanger) (wait : bool) :
  (state self = Disabled ->
   let moved := snd (_set_state (Some Unknown) None self) in
   SampleChangerMode.Disabled <> get_state self
   /\ change_mode dev SampleChangerMode.Disabled wait self
      = (update_info dev ;;
         _execute_task dev ChangingMode wait
           (DoChangeMode SampleChangerMode.Disabled)) moved
   /\ get_state moved = Unknown
   /\ moved <> self
   /\ emitted moved =
      emitted self ++ STATE_CHANGED_EVENT Unknown Disabled
        :: (if String.eqb (status self) "Unknown" then []
            else [STATUS_CHANGED_EVENT "Unknown"])
   /\ (forall refreshed,
         _do_update_info dev moved = (Return tt, refreshed) ->
         is_ready refreshed = false ->
         exists after,
           change_mode dev SampleChangerMode.Disabled wait self
           = (Raise (bad_state (state refreshed)), after)
           /\ get_state after = state refreshed))
  /\ (state self = StandBy ->
      change_mode dev SampleChangerMode.Disabled wait self
      = (Return PNone, self)).
Proof.
  split.
  - intros Hs moved.
    assert (Hne : state self <> Unknown) by (rewrite Hs; discriminate).
    pose proof (_set_state_state self Unknown) as Hm.
    pose proof (_set_state_emitted self Unknown Hne) as He.
    pose proof (_set_state_returns self (Some Unknown) None) as Hr.
    fold moved in Hm, He.
    assert (Heq : change_mode dev SampleChangerMode.Disabled wait self
                  = (update_info dev ;;
                     _execute_task dev ChangingMode wait
                       (DoChangeMode SampleChangerMode.Disabled)) moved).
    { unfold change_mode, get_state. rewrite Hs.
      replace (SampleChangerMode.Disabled =? SampleChangerMode.Unknown)
        with false by reflexivity.
      replace (SampleChangerMode.Disabled =? Disabled)
        with false by reflexivity.
      rewrite Z.eqb_refl. unfold bind at 1. unfold bind at 1.
      subst moved.
      destruct (_set_state (Some Unknown) None self) as [r s1].
      simpl in Hr. subst r. reflexivity. }
    split; [unfold get_state; rewrite Hs; discriminate | ].
    split; [exact Heq | ].
    split; [exact Hm | ].
    split; [intros E; rewrite E in Hm; congruence | ].
    split; [rewrite He, Hs; reflexivity | ].
    intros refreshed Hhook Hnr.
    destruct (update_info_returns dev moved refreshed Hhook)
      as (info & Hinfo & Hst & _).
    exists info. rewrite Heq. unfold bind at 1. rewrite Hinfo.
    rewrite <- Hst. split; [ | reflexivity].
    apply _execute_task_not_ready.
    unfold is_ready in *. rewrite Hst. exact Hnr.
  - intros Hs. unfold change_mode, get_state. rewrite Hs. reflexivity.
Qed.

End DisabledMode.

Lemma change_mode_disabled_is_not_short_circuited_witness :
  state (changer SampleChangerState.Disabled) = SampleChangerState.Disabled
  /\ SampleChangerMode.Disabled
     <> get_state (changer SampleChangerState.Disabled)
  /\ exists after,
      change_mode SampleChangerMockup SampleChangerMode.Disabled true
        (changer SampleChangerState.Disabled)
      = (Raise (Exception "Cannot execute task: bad state (Unknown)"), after)
      /\ get_state after = SampleChangerState.Unknown.
Proof.
  split; [reflexivity | ].
  destruct (proj1 (change_mode_disabled_is_not_short_circuited
                     SampleChangerMockup
                     (changer SampleChangerState.Disabled) true) eq_refl)
    as (Hne & _ & _ & _ & _ & Hraise).
  split; [exact Hne | ].
  apply (Hraise (snd (_set_state (Some SampleChangerState.Unknown) None
                        (changer SampleChangerState.Disabled))));
    reflexivity.
Defined.
